(** * The Cloud Run generation proxy (index.js), embedded in Rocq

    index.js is an Express application with two routes: [GET /] sends a fixed
    HTML page, [POST /api/generate] forwards a prompt to the Gemini client and
    relays the answer.  This file embeds the JavaScript values the handlers
    touch, the effects they perform (console output, the upstream call, the
    mutation of [res]) and the two handlers themselves, and proves the
    request/response contract of the proxy. *)

From Stdlib Require Import List String Ascii ZArith NArith Bool Lia.
From Stdlib Require Import Floats.SpecFloat DecimalString.
Import ListNotations.

Local Open Scope string_scope.
Local Open Scope list_scope.

(** ** JavaScript values *)

Module Js.

(** A JavaScript string is a finite sequence of 16-bit code units. *)
Definition JsString := list N.

(** The code units of an ASCII literal of the source text. *)
Definition str (s : string) : JsString :=
  map N_of_ascii (list_ascii_of_string s).

Fixpoint JsString_eqb (a b : JsString) : bool :=
  match a, b with
  | [], [] => true
  | x :: a', y :: b' => (x =? y)%N && JsString_eqb a' b'
  | _, _ => false
  end.

(** A Number is an IEEE 754 binary64 value. *)
Definition num (z : Z) : spec_float := binary_normalize 53 1024 z 0 false.

(** The values that reach the handlers: what [JSON.parse] builds for a request
    body, what the Gemini client resolves with, and the [Error] objects that
    are thrown.  The property list of [JObject] holds the own enumerable
    properties in enumeration order; a lookup reads the first entry of a
    key. *)
#[warnings="-register-all"] Inductive JsValue :=
| JUndefined
| JNull
| JBool (b : bool)
| JNumber (x : spec_float)
| JString (s : JsString)
| JArray (xs : list JsValue)
| JObject (props : list (JsString * JsValue))
| JError (name message : JsString).

(** ToBoolean. *)
Definition truthy (v : JsValue) : bool :=
  match v with
  | JUndefined | JNull => false
  | JBool b => b
  | JNumber (S754_zero _) | JNumber S754_nan => false
  | JNumber _ => true
  | JString [] => false
  | JString _ => true
  | JArray _ | JObject _ | JError _ _ => true
  end.

Definition typeof_string (v : JsValue) : bool :=
  match v with JString _ => true | _ => false end.

Definition nullish (v : JsValue) : bool :=
  match v with JUndefined | JNull => true | _ => false end.

Fixpoint assoc {A : Type} (k : JsString) (props : list (JsString * A)) : option A :=
  match props with
  | [] => None
  | (k', v) :: rest => if JsString_eqb k k' then Some v else assoc k rest
  end.

(** The decimal property key of an array index: [0] is the key "0". *)
Definition index_key (i : nat) : JsString :=
  str (NilEmpty.string_of_uint (Nat.to_uint i)).

(** The property [k] of a value, [None] when it has none.  The names that
    index.js reads (prompt, candidates, content, parts, text) are defined by
    no built-in object, so that a boolean, a number, a string and an array
    have none of them, and an [Error] has its name and message. *)
Definition own_prop (v : JsValue) (k : JsString) : option JsValue :=
  match v with
  | JObject props => assoc k props
  | JError name message =>
      if JsString_eqb k (str "name") then Some (JString name)
      else if JsString_eqb k (str "message") then Some (JString message)
      else None
  | _ => None
  end.

(** The element [v[i]]: an array element, a code unit of a string, or the
    property whose key is the decimal numeral [i]. *)
Definition own_index (v : JsValue) (i : nat) : option JsValue :=
  match v with
  | JArray xs => nth_error xs i
  | JString s => option_map (fun c => JString [c]) (nth_error s i)
  | _ => own_prop v (index_key i)
  end.

(** *** JSON.stringify

    [res.json] sends [JSON.stringify] of its argument.  A JSON document is a
    tree: a property whose value is [undefined] is left out, [undefined] in an
    array and the numbers NaN and Infinity become [null], an [Error] has no
    enumerable property. *)
#[warnings="-register-all"] Inductive Json :=
| JsonNull
| JsonBool (b : bool)
| JsonNumber (x : spec_float)
| JsonString (s : JsString)
| JsonArray (xs : list Json)
| JsonObject (props : list (JsString * Json)).

Definition JSON_number (x : spec_float) : Json :=
  match x with
  | S754_zero _ => JsonNumber (S754_zero false)
  | S754_finite _ _ _ => JsonNumber x
  | S754_infinity _ | S754_nan => JsonNull
  end.

(** SerializeJSONProperty; [None] is the result [undefined]. *)
Fixpoint JSON_stringify (v : JsValue) : option Json :=
  match v with
  | JUndefined => None
  | JNull => Some JsonNull
  | JBool b => Some (JsonBool b)
  | JNumber x => Some (JSON_number x)
  | JString s => Some (JsonString s)
  | JArray xs =>
      Some (JsonArray
              (map (fun x => match JSON_stringify x with
                             | Some j => j
                             | None => JsonNull
                             end) xs))
  | JObject props =>
      Some (JsonObject
              ((fix members (ps : list (JsString * JsValue)) :=
                  match ps with
                  | [] => []
                  | (k, x) :: rest =>
                      match JSON_stringify x with
                      | Some j => (k, j) :: members rest
                      | None => members rest
                      end
                  end) props))
  | JError _ _ => Some (JsonObject [])
  end.

(** The field [k] of a JSON document, [None] when it has none. *)
Definition json_field (j : Json) (k : JsString) : option Json :=
  match j with
  | JsonObject props => assoc k props
  | _ => None
  end.

(** The text of a JSON document.  Number::toString is left to the engine. *)
Section Text.

Variable Number_toString : spec_float -> JsString.

Definition hex_digit (n : N) : N :=
  if (n <? 10)%N then (48 + n)%N else (87 + n)%N.

(** The escape of a code unit as a backslash, the letter u and four
    lowercase hexadecimal digits. *)
Definition unicode_escape (c : N) : JsString :=
  [92%N; 117%N;
   hex_digit ((c / 4096) mod 16); hex_digit ((c / 256) mod 16);
   hex_digit ((c / 16) mod 16); hex_digit (c mod 16)].

Definition leading_surrogate (c : N) : bool :=
  ((55296 <=? c) && (c <=? 56319))%N.

Definition trailing_surrogate (c : N) : bool :=
  ((56320 <=? c) && (c <=? 57343))%N.

(** The body of QuoteJSONString. *)
Fixpoint quote_units (s : JsString) : JsString :=
  match s with
  | [] => []
  | c :: rest =>
      if (c =? 8)%N then [92; 98]%N ++ quote_units rest
      else if (c =? 9)%N then [92; 116]%N ++ quote_units rest
      else if (c =? 10)%N then [92; 110]%N ++ quote_units rest
      else if (c =? 12)%N then [92; 102]%N ++ quote_units rest
      else if (c =? 13)%N then [92; 114]%N ++ quote_units rest
      else if (c =? 34)%N then [92; 34]%N ++ quote_units rest
      else if (c =? 92)%N then [92; 92]%N ++ quote_units rest
      else if (c <? 32)%N then unicode_escape c ++ quote_units rest
      else if leading_surrogate c then
        match rest with
        | d :: rest' =>
            if trailing_surrogate d then c :: d :: quote_units rest'
            else unicode_escape c ++ quote_units rest
        | [] => unicode_escape c
        end
      else if trailing_surrogate c then unicode_escape c ++ quote_units rest
      else c :: quote_units rest
  end.

Definition QuoteJSONString (s : JsString) : JsString :=
  [34%N] ++ quote_units s ++ [34%N].

Fixpoint comma_join (parts : list JsString) : JsString :=
  match parts with
  | [] => []
  | [p] => p
  | p :: rest => p ++ [44%N] ++ comma_join rest
  end.

Fixpoint json_text (j : Json) : JsString :=
  match j with
  | JsonNull => str "null"
  | JsonBool true => str "true"
  | JsonBool false => str "false"
  | JsonNumber x => Number_toString x
  | JsonString s => QuoteJSONString s
  | JsonArray xs => str "[" ++ comma_join (map json_text xs) ++ str "]"
  | JsonObject props =>
      str "{"
      ++ comma_join
           (map (fun kv => QuoteJSONString (fst kv) ++ str ":" ++ json_text (snd kv))
                props)
      ++ str "}"
  end.

End Text.

(** *** Completions *)

Inductive Completion (A : Type) :=
| Normal (a : A)
| Throw (e : JsValue).
Arguments Normal {A} a.
Arguments Throw {A} e.

(** The settled state of a promise. *)
Inductive Settled :=
| Fulfilled (v : JsValue)
| Rejected (reason : JsValue).

(** The [TypeError] of Node 20 for a property read on [undefined] or
    [null]. *)
Definition nullish_name (v : JsValue) : JsString :=
  match v with
  | JNull => str "null"
  | _ => str "undefined"
  end.

Definition TypeError_read (v : JsValue) (k : JsString) : JsValue :=
  JError (str "TypeError")
         (str "Cannot read properties of " ++ nullish_name v
          ++ str " (reading '" ++ k ++ str "')").

Definition TypeError_destructure (v : JsValue) (k source : JsString) : JsValue :=
  JError (str "TypeError")
         (str "Cannot destructure property '" ++ k ++ str "' of '" ++ source
          ++ str "' as it is " ++ nullish_name v ++ str ".").

(** [v.k] *)
Definition Get (v : JsValue) (k : string) : Completion JsValue :=
  if nullish v then Throw (TypeError_read v (str k))
  else Normal (match own_prop v (str k) with Some x => x | None => JUndefined end).

(** [v[i]] *)
Definition GetIndex (v : JsValue) (i : nat) : Completion JsValue :=
  if nullish v then Throw (TypeError_read v (index_key i))
  else Normal (match own_index v i with Some x => x | None => JUndefined end).

(** [const { k } = v], where [source] is the text of the initializer. *)
Definition Destructure (v : JsValue) (k source : string) : Completion JsValue :=
  if nullish v then Throw (TypeError_destructure v (str k) (str source))
  else Normal (match own_prop v (str k) with Some x => x | None => JUndefined end).

End Js.

Import Js.

(** ** The process: console, upstream service, response objects *)

Inductive Level := console_log | console_warn | console_error.

Record LogEntry := { level : Level; args : list JsValue }.

(** What the process has done so far: the lines written to the console and
    the argument of every call made to the upstream service, oldest first. *)
Record World := { console : list LogEntry; upstream : list JsValue }.

(** A computation reads and extends the world and completes normally or
    throws; what it did before it threw stays done. *)
Definition M (A : Type) : Type := World -> Completion A * World.

Definition ret {A} (a : A) : M A := fun w => (Normal a, w).

Definition bind {A B} (m : M A) (k : A -> M B) : M B :=
  fun w =>
    match m w with
    | (Normal a, w') => k a w'
    | (Throw e, w') => (Throw e, w')
    end.

Definition lift {A} (c : Completion A) : M A := fun w => (c, w).

(** [try { body } catch (error) { handler error }] *)
Definition try_catch {A} (body : M A) (handler : JsValue -> M A) : M A :=
  fun w =>
    match body w with
    | (Normal a, w') => (Normal a, w')
    | (Throw e, w') => handler e w'
    end.

Notation "x <- m ;; k" := (bind m (fun x => k))
  (at level 61, m at next level, right associativity).
Notation "m ;; k" := (bind m (fun _ => k))
  (at level 61, right associativity).

Definition console_write (l : Level) (xs : list JsValue) : M unit :=
  fun w => (Normal tt, {| console := console w ++ [{| level := l; args := xs |}];
                          upstream := upstream w |}).

(** The client of @google/genai.  The remote service is a black box: what a
    call settles with may depend on its argument and on the calls the service
    has received before. *)
Record Models := { generateContent : list JsValue -> JsValue -> Settled }.
Record GoogleGenAI := { models : Models }.

(** [await client.models.generateContent(request)] *)
Definition await_generateContent (client : GoogleGenAI) (request : JsValue) : M JsValue :=
  fun w =>
    let w' := {| console := console w; upstream := upstream w ++ [request] |} in
    match generateContent (models client) (upstream w) request with
    | Fulfilled v => (Normal v, w')
    | Rejected reason => (Throw reason, w')
    end.

(** The part of an Express request and response the handlers touch.
    [req_headers] is [req.headers], [headers] are the headers set by the
    handler and by [res.send], [payload] is what was sent. *)
Record Request := {
  method : JsString;
  url : JsString;
  req_headers : list (JsString * JsString);
  body : JsValue
}.

Inductive Payload :=
| NotSent
| SentText (s : JsString)
| SentJson (j : Json).

Record Response := {
  statusCode : Z;
  headers : list (JsString * JsString);
  payload : Payload
}.

(** A response object as the handler receives it: Node's default status. *)
Definition new_response : Response :=
  {| statusCode := 200; headers := []; payload := NotSent |}.

Definition status (res : Response) (code : Z) : Response :=
  {| statusCode := code; headers := headers res; payload := payload res |}.

Definition setHeader (res : Response) (name value : string) : Response :=
  {| statusCode := statusCode res;
     headers := (str name, str value)
                :: filter (fun h => negb (JsString_eqb (fst h) (str name))) (headers res);
     payload := payload res |}.

(** The decimal numeral of a number that is a natural number: an HTTP
    status, a length. *)
Definition decimal (n : N) : JsString :=
  str (NilEmpty.string_of_uint (N.to_uint n)).

(** *** res.send

    [res.send(text)] of Express 5 completes the headers, answers a fresh
    conditional request with 304 and ends the response.  The entity tag of a
    body is a hash computed by the etag package, and is left to it. *)

Definition getHeader (res : Response) (name : string) : option JsString :=
  assoc (str name) (headers res).

Definition set_header (res : Response) (name : string) (value : JsString) : Response :=
  {| statusCode := statusCode res;
     headers := (str name, value)
                :: filter (fun h => negb (JsString_eqb (fst h) (str name))) (headers res);
     payload := payload res |}.

Definition removeHeader (res : Response) (name : string) : Response :=
  {| statusCode := statusCode res;
     headers := filter (fun h => negb (JsString_eqb (fst h) (str name))) (headers res);
     payload := payload res |}.

(** [req.headers[name]]: Node keeps the names of the request headers in
    lower case. *)
Definition request_header (req : Request) (name : string) : option JsString :=
  assoc (str name) (req_headers req).

(** A header that is present and not empty. *)
Definition is_set (value : option JsString) : bool :=
  match value with
  | Some (_ :: _) => true
  | _ => false
  end.

Fixpoint split_on (separator : N) (s : JsString) : list JsString :=
  match s with
  | [] => [[]]
  | c :: rest =>
      if (c =? separator)%N then [] :: split_on separator rest
      else match split_on separator rest with
           | [] => [[c]]
           | segment :: segments => (c :: segment) :: segments
           end
  end.

Fixpoint drop_while (p : N -> bool) (s : JsString) : JsString :=
  match s with
  | [] => []
  | c :: rest => if p c then drop_while p rest else s
  end.

Definition trim (p : N -> bool) (s : JsString) : JsString :=
  rev (drop_while p (rev (drop_while p s))).

(** The class \s of a regular expression. *)
Definition is_space (c : N) : bool :=
  (((9 <=? c) && (c <=? 13)) || (c =? 32) || (c =? 160) || (c =? 5760)
   || ((8192 <=? c) && (c <=? 8202)) || (c =? 8232) || (c =? 8233) || (c =? 8239)
   || (c =? 8287) || (c =? 12288) || (c =? 65279))%N.

(** Whether a Cache-Control value has the directive no-cache: a segment
    between commas that is no-cache up to white space around it. *)
Definition no_cache (cacheControl : JsString) : bool :=
  existsb (fun segment => JsString_eqb (trim is_space segment) (str "no-cache"))
          (split_on 44 cacheControl).

(** The tags of an If-None-Match value: the segments between commas,
    without the blanks around them. *)
Definition parseTokenList (s : JsString) : list JsString :=
  map (trim (fun c => (c =? 32)%N)) (split_on 44 s).

(** The function of the fresh package, for a response without a
    Last-Modified header (nothing in index.js sets one): an If-None-Match
    decides alone, and an If-Modified-Since finds nothing to compare with. *)
Definition fresh (reqHeaders : list (JsString * JsString)) (etag : option JsString) : bool :=
  let modifiedSince := assoc (str "if-modified-since") reqHeaders in
  let noneMatch := assoc (str "if-none-match") reqHeaders in
  let cacheControl := assoc (str "cache-control") reqHeaders in
  if negb (is_set modifiedSince) && negb (is_set noneMatch) then false
  else if is_set cacheControl
          && no_cache (match cacheControl with Some value => value | None => [] end)
  then false
  else
    match noneMatch with
    | Some (m :: tags) =>
        if JsString_eqb (m :: tags) (str "*") then true
        else
          match etag with
          | Some (e :: tag) =>
              existsb (fun candidate =>
                         JsString_eqb candidate (e :: tag)
                         || JsString_eqb candidate (str "W/" ++ e :: tag)
                         || JsString_eqb (str "W/" ++ candidate) (e :: tag))
                      (parseTokenList (m :: tags))
          | _ => false
          end
    | _ => false
    end.

(** [req.fresh] *)
Definition req_fresh (req : Request) (res : Response) : bool :=
  (JsString_eqb (method req) (str "GET") || JsString_eqb (method req) (str "HEAD"))
  && (((200 <=? statusCode res) && (statusCode res <? 300)) || (statusCode res =? 304))%Z
  && fresh (req_headers req) (getHeader res "ETag").

(** The number of bytes of the UTF-8 encoding of a string. *)
Fixpoint byteLength (s : JsString) : N :=
  match s with
  | [] => 0
  | c :: rest =>
      if (c <? 128)%N then (1 + byteLength rest)%N
      else if (c <? 2048)%N then (2 + byteLength rest)%N
      else if leading_surrogate c then
        match rest with
        | d :: rest' =>
            if trailing_surrogate d then (4 + byteLength rest')%N
            else (3 + byteLength rest)%N
        | [] => 3%N
        end
      else (3 + byteLength rest)%N
  end.

(** The charset parameter that [res.send] adds to the type of a text, for a
    media type without parameters, which is what index.js sets. *)
Definition setCharset (type : JsString) : JsString :=
  match type with
  | [] => []
  | _ :: _ => type ++ str "; charset=utf-8"
  end.

Section Send.

(** The entity tag that the etag package computes for a body. *)
Variable ETag : JsString -> JsString.

Definition send (req : Request) (res : Response) (text : JsString) : Response :=
  let res :=
    match getHeader res "Content-Type" with
    | Some (c :: type) => set_header res "Content-Type" (setCharset (c :: type))
    | _ => set_header res "Content-Type" (str "text/html; charset=utf-8")
    end in
  let res := set_header res "Content-Length" (decimal (byteLength text)) in
  let res :=
    if is_set (getHeader res "ETag") then res
    else match ETag text with
         | [] => res
         | e :: tag => set_header res "ETag" (e :: tag)
         end in
  let res := if req_fresh req res then status res 304 else res in
  let bodiless := ((statusCode res =? 204) || (statusCode res =? 304))%Z in
  let res :=
    if bodiless then
      removeHeader (removeHeader (removeHeader res "Content-Type") "Content-Length")
        "Transfer-Encoding"
    else res in
  let reset := (statusCode res =? 205)%Z in
  let res :=
    if reset then removeHeader (set_header res "Content-Length" (str "0")) "Transfer-Encoding"
    else res in
  {| statusCode := statusCode res;
     headers := headers res;
     payload :=
       SentText (if bodiless || reset || JsString_eqb (method req) (str "HEAD") then []
                 else text) |}.

End Send.

Definition json (res : Response) (v : JsValue) : Response :=
  {| statusCode := statusCode res; headers := headers res;
     payload := match JSON_stringify v with
                | Some j => SentJson j
                | None => NotSent
                end |}.

(** ** index.js *)

(** [a || b] *)
Definition or_else (a b : JsValue) : JsValue := if truthy a then a else b.

(** [process.env.NAME]: the value of the variable as a string, or
    [undefined]. *)
Definition process_env (env : list (JsString * JsString)) (name : string) : JsValue :=
  match assoc (str name) env with
  | Some value => JString value
  | None => JUndefined
  end.

(** [const PORT = process.env.PORT || 8080;] *)
Definition PORT (env : list (JsString * JsString)) : JsValue :=
  or_else (process_env env "PORT") (JNumber (num 8080)).

(** The client handle [ai], set once when the module is loaded. *)
Section Startup.

(** [new GoogleGenAI(options)], from @google/genai. *)
Variable new_GoogleGenAI : JsValue -> GoogleGenAI.

Definition init_ai (env : list (JsString * JsString)) : M (option GoogleGenAI) :=
  let GEMINI_API_KEY := process_env env "GEMINI_API_KEY" in
  if truthy GEMINI_API_KEY then
    let ai := new_GoogleGenAI (JObject [(str "apiKey", GEMINI_API_KEY)]) in
    console_write console_log [JString (str "Gemini AI client initialized successfully.")] ;;
    ret (Some ai)
  else
    console_write console_warn [JString (str "GEMINI_API_KEY is not set. The /api/generate endpoint will not work until the secret is configured in Cloud Run.")] ;;
    ret None.

End Startup.

(** The template literal of the page, line by line; in these lines the
    character # stands for the double quote. *)
Definition page_lines : list string :=
    [
     EmptyString;
     "    <!DOCTYPE html>";
     "    <html lang=#en#>";
     "    <head>";
     "      <meta charset=#UTF-8#>";
     "      <meta name=#viewport# content=#width=device-width, initial-scale=1.0#>";
     "      <title>Cloud Run AI Generator</title>";
     "      <script src=#https://cdn.tailwindcss.com#></script>";
     "      <style>";
     "        body { font-family: 'Inter', sans-serif; }";
     "      </style>";
     "    </head>";
     "    <body class=#bg-gray-100 flex justify-center items-start min-h-screen p-8#>";
     "      <div class=#container bg-white p-8 rounded-xl shadow-2xl max-w-lg w-full mt-10#>";
     "        <h1 class=#text-3xl font-extrabold text-blue-700 mb-4 text-center#>Serverless AI Content Generator</h1>";
     "        <p class=#text-gray-600 mb-6 text-center text-sm#>";
     "          This containerized Node.js app hosted on Cloud Run calls the Gemini API securely.";
     "        </p>";
     "        ";
     "        <form id=#ai-form# class=#space-y-4#>";
     "          <input type=#text# id=#prompt-input# placeholder=#e.g., Write a haiku about serverless computing# ";
     "                 class=#w-full p-3 border border-gray-300 rounded-lg focus:ring-blue-500 focus:border-blue-500 transition duration-150 shadow-inner# required>";
     "          <button type=#submit# id=#submit-button# ";
     "                  class=#w-full bg-blue-600 hover:bg-blue-700 text-white font-bold py-3 px-4 rounded-lg transition duration-300 shadow-lg hover:shadow-xl disabled:bg-gray-400#>";
     "            Generate Content";
     "          </button>";
     "        </form>";
     "        ";
     "        <div id=#loading# class=#text-center text-blue-600 mt-4 hidden#>";
     "            <svg class=#animate-spin h-5 w-5 mr-3 inline-block# xmlns=#http://www.w3.org/2000/svg# fill=#none# viewBox=#0 0 24 24#>";
     "              <circle class=#opacity-25# cx=#12# cy=#12# r=#10# stroke=#currentColor# stroke-width=#4#></circle>";
     "              <path class=#opacity-75# fill=#currentColor# d=#M4 12a8 8 0 018-8V0C5.373 0 0 5.373 0 12h4z#></path>";
     "            </svg>";
     "            Generating...";
     "        </div>";
     "        ";
     "        <div class=#mt-8 pt-4 border-t border-gray-200#>";
     "            <h2 class=#text-xl font-semibold text-gray-700 mb-2#>AI Response:</h2>";
     "            <p id=#response-output# class=#whitespace-pre-wrap text-gray-800 bg-gray-50 p-4 rounded-xl border-2 border-dashed border-blue-200 min-h-24 flex items-center justify-center text-base italic text-center#>";
     "                The AI's response will appear here.";
     "            </p>";
     "        </div>";
     EmptyString;
     "        <script>";
     "            document.getElementById('ai-form').addEventListener('submit', async (e) => {";
     "                e.preventDefault();";
     "                const prompt = document.getElementById('prompt-input').value;";
     "                const loading = document.getElementById('loading');";
     "                const output = document.getElementById('response-output');";
     "                const button = document.getElementById('submit-button');";
     EmptyString;
     "                output.textContent = '';";
     "                loading.classList.remove('hidden');";
     "                button.disabled = true;";
     "                output.classList.remove('text-red-600');";
     "                output.classList.remove('italic');";
     EmptyString;
     "                try {";
     "                    const response = await fetch('/api/generate', {";
     "                        method: 'POST',";
     "                        headers: { 'Content-Type': 'application/json' },";
     "                        body: JSON.stringify({ prompt: prompt })";
     "                    });";
     EmptyString;
     "                    if (!response.ok) {";
     "                        const errorData = await response.json();";
     "                        throw new Error(errorData.error || `HTTP error! Status: ${response.status}`);";
     "                    }";
     EmptyString;
     "                    const data = await response.json();";
     "                    output.textContent = data.text;";
     "                } catch (error) {";
     "                    console.error('API Error:', error);";
     "                    output.textContent = `Error: ${error.message}. Please ensure the GEMINI_API_KEY is correctly configured on the Cloud Run service.`;";
     "                    output.classList.add('text-red-600');";
     "                    output.classList.add('italic');";
     "                } finally {";
     "                    loading.classList.add('hidden');";
     "                    button.disabled = false;";
     "                }";
     "            });";
     "        </script>";
     "      </div>";
     "    </body>";
     "    </html>";
     "  "
    ].

Definition page_unit (a : ascii) : N :=
  if Ascii.eqb a "#"%char then 34%N else N_of_ascii a.

(** The code units of a text in which # stands for the double quote. *)
Definition quoted (s : string) : JsString :=
  map page_unit (list_ascii_of_string s).

Fixpoint join_lines (ls : list string) : JsString :=
  match ls with
  | [] => []
  | [l] => quoted l
  | l :: rest => quoted l ++ [10%N] ++ join_lines rest
  end.

Definition page : JsString := join_lines page_lines.

(** [app.get('/', (req, res) => ...)], where [ETag] is the entity tag
    function of the application. *)
Definition root_handler (ETag : JsString -> JsString) (req : Request) (res : Response)
  : M Response :=
  let res := setHeader res "Content-Type" "text/html" in
  ret (send ETag req res page).

(** [response.candidates[0].content.parts[0].text] *)
Definition generated_text (response : JsValue) : Completion JsValue :=
  match Get response "candidates" with
  | Throw e => Throw e
  | Normal candidates =>
  match GetIndex candidates 0 with
  | Throw e => Throw e
  | Normal candidate =>
  match Get candidate "content" with
  | Throw e => Throw e
  | Normal content =>
  match Get content "parts" with
  | Throw e => Throw e
  | Normal parts =>
  match GetIndex parts 0 with
  | Throw e => Throw e
  | Normal part => Get part "text"
  end end end end end.

(** [app.post('/api/generate', async (req, res) => ...)] *)
Definition generate_handler (ai : option GoogleGenAI) (req : Request) (res : Response)
  : M Response :=
  match ai with
  | None =>
      console_write console_error [JString (str "Critical Error: AI service is not configured because GEMINI_API_KEY is missing from environment.")] ;;
      ret (json (status res 503)
             (JObject [(str "error", JString (str "AI service is unavailable. The server is missing required configuration (API Key)."))]))
  | Some ai =>
      prompt <- lift (Destructure (body req) "prompt" "req.body") ;;
      if negb (truthy prompt) then
        ret (json (status res 400)
               (JObject [(str "error", JString (str "Prompt is required in the request body."))]))
      else
        try_catch
          (response <- await_generateContent ai
                         (JObject
                            [(str "model", JString (str "gemini-2.5-flash"));
                             (str "contents",
                              JArray [JObject [(str "role", JString (str "user"));
                                               (str "parts",
                                                JArray [JObject [(str "text", prompt)]])]]);
                             (str "config",
                              JObject [(str "maxOutputTokens", JNumber (num 256))])]) ;;
           generatedText <- lift (generated_text response) ;;
           ret (json res (JObject [(str "text", generatedText)])))
          (fun error =>
             console_write console_error [JString (str "Gemini API call failed:"); error] ;;
             ret (json (status res 500)
                    (JObject [(str "error", JString (str "Failed to generate content from the AI model due to an internal API error."))])))
  end.

(** ** The vocabulary of the specification *)

(** The [prompt] field of the request body, [undefined] when the body has
    none. *)
Definition prompt_of (req : Request) : JsValue :=
  match own_prop (body req) (str "prompt") with
  | Some p => p
  | None => JUndefined
  end.

(** The body [{ error: message }]. *)
Definition error_body (message : string) : Payload :=
  SentJson (JsonObject [(str "error", JsonString (str message))]).

(** The fixed configuration of the upstream call: the model, one user-role
    message with one part whose text is the prompt, and the output cap. *)
Definition expected_request (prompt : JsValue) : JsValue :=
  JObject
    [(str "model", JString (str "gemini-2.5-flash"));
     (str "contents",
      JArray [JObject [(str "role", JString (str "user"));
                       (str "parts", JArray [JObject [(str "text", prompt)]])]]);
     (str "config", JObject [(str "maxOutputTokens", JNumber (num 256))])].

(** The first content part of the first candidate of an upstream response,
    when the response has one. *)
Definition first_part (response : JsValue) : option JsValue :=
  match own_prop response (str "candidates") with
  | None => None
  | Some candidates =>
  match own_index candidates 0 with
  | None => None
  | Some candidate =>
  match own_prop candidate (str "content") with
  | None => None
  | Some content =>
  match own_prop content (str "parts") with
  | None => None
  | Some parts => own_index parts 0
  end end end end.

(** The upstream call of the handler fails: the promise is rejected, or the
    response it resolves with has not the shape the handler reads. *)
Definition upstream_fails (ai : GoogleGenAI) (w : World) (request : JsValue) : Prop :=
  match generateContent (models ai) (upstream w) request with
  | Rejected _ => True
  | Fulfilled response => exists e, generated_text response = Throw e
  end.

(** An upstream whose answer depends on the call alone. *)
Definition deterministic (ai : GoogleGenAI) : Prop :=
  forall history1 history2 request,
    generateContent (models ai) history1 request
    = generateContent (models ai) history2 request.

(** *** Sample inputs *)

Definition quiet : World := {| console := []; upstream := [] |}.

(** A POST to /api/generate with the parsed body [b]. *)
Definition post (b : JsValue) : Request :=
  {| method := str "POST"; url := str "/api/generate";
     req_headers := [(str "content-type", str "application/json")];
     body := b |}.

Definition get_root : Request :=
  {| method := str "GET"; url := str "/"; req_headers := []; body := JUndefined |}.

(** A conditional GET of the page: any current representation will do. *)
Definition conditional_get_root : Request :=
  {| method := str "GET"; url := str "/";
     req_headers := [(str "if-none-match", str "*")];
     body := JUndefined |}.

(** A stand-in for the entity tag function. *)
Definition length_tag (text : JsString) : JsString :=
  str "W/" ++ decimal (byteLength text).

Definition haiku : Request :=
  post (JObject [(str "prompt", JString (str "Write a haiku about serverless computing"))]).

(** A response with one candidate that has the one content part [part]. *)
Definition one_candidate (part : JsValue) : JsValue :=
  JObject
    [(str "candidates",
      JArray [JObject [(str "content",
                        JObject [(str "role", JString (str "model"));
                                 (str "parts", JArray [part])])]])].

(** A client whose every call resolves with [response]. *)
Definition resolving (response : JsValue) : GoogleGenAI :=
  {| models := {| generateContent := fun _ _ => Fulfilled response |} |}.

(** A client whose every call is rejected with [reason]. *)
Definition rejecting (reason : JsValue) : GoogleGenAI :=
  {| models := {| generateContent := fun _ _ => Rejected reason |} |}.

(** ** The script of the page

    The page carries one script, the submit listener of the form (lines 76
    to 112 of index.js).  It runs in the browser, against the elements of the
    page and the network. *)

(** ToString.  The values at hand are built by [JSON.parse] or are [Error]
    objects: an array is joined with commas, an object is "[object Object]"
    unless an own property named toString hides the method, in which case the
    conversion throws. *)
Section Conversions.

Variable Number_toString : spec_float -> JsString.

Definition TypeError_primitive : JsValue :=
  JError (str "TypeError") (str "Cannot convert object to primitive value").

Fixpoint ToString (v : JsValue) : Completion JsString :=
  match v with
  | JUndefined => Normal (str "undefined")
  | JNull => Normal (str "null")
  | JBool true => Normal (str "true")
  | JBool false => Normal (str "false")
  | JNumber x => Normal (Number_toString x)
  | JString s => Normal s
  | JArray xs =>
      (fix join (ys : list JsValue) : Completion JsString :=
         match ys with
         | [] => Normal []
         | y :: rest =>
             match (if nullish y then Normal [] else ToString y) with
             | Throw e => Throw e
             | Normal s =>
                 match rest with
                 | [] => Normal s
                 | _ :: _ =>
                     match join rest with
                     | Throw e => Throw e
                     | Normal t => Normal (s ++ [44%N] ++ t)
                     end
                 end
             end
         end) xs
  | JObject props =>
      match assoc (str "toString") props with
      | Some _ => Throw TypeError_primitive
      | None => Normal (str "[object Object]")
      end
  | JError name message =>
      Normal (match name, message with
              | [], _ => message
              | _, [] => name
              | _, _ => name ++ str ": " ++ message
              end)
  end.

(** The conversion of a value assigned to [textContent]: [undefined] and
    [null] clear the text. *)
Definition DOMString_or_null (v : JsValue) : Completion JsString :=
  if nullish v then Normal [] else ToString v.

End Conversions.

(** One call of [fetch]: the URL and the method, headers and body of its
    second argument.  The body is the document [JSON.stringify] built. *)
Record FetchCall := {
  fetch_url : JsString;
  fetch_method : JsString;
  fetch_headers : list (JsString * JsString);
  fetch_body : option Json
}.

(** What the script reads of a Response: [status], and what [json()]
    settles with. *)
Record FetchResponse := {
  response_status : N;
  response_json : Settled
}.

(** [response.ok] *)
Definition response_ok (response : FetchResponse) : bool :=
  ((200 <=? response_status response) && (response_status response <=? 299))%N.

Inductive Fetched :=
| fetch_rejected (reason : JsValue)
| fetch_fulfilled (response : FetchResponse).

(** The network is a black box: what a call settles with may depend on the
    call and on the calls made before. *)
Definition Network : Type := list FetchCall -> FetchCall -> Fetched.

(** The elements the script touches, the submit event, the console of the
    browser and the calls of [fetch], oldest first. *)
Record Dom := {
  prompt_input_value : JsString;
  output_textContent : JsString;
  output_classList : list JsString;
  loading_classList : list JsString;
  submit_button_disabled : bool;
  defaultPrevented : bool;
  browser_console : list LogEntry;
  fetched : list FetchCall
}.

(** [classList.add] and [classList.remove]: a class list is an ordered set
    of tokens. *)
Definition classList_add (token : string) (classes : list JsString) : list JsString :=
  if existsb (JsString_eqb (str token)) classes then classes else classes ++ [str token].

Definition classList_remove (token : string) (classes : list JsString) : list JsString :=
  filter (fun c => negb (JsString_eqb (str token) c)) classes.

Definition Script (A : Type) : Type := Dom -> Completion A * Dom.

Definition done {A} (a : A) : Script A := fun d => (Normal a, d).

Definition throw {A} (e : JsValue) : Script A := fun d => (Throw e, d).

Definition and_then {A B} (m : Script A) (k : A -> Script B) : Script B :=
  fun d =>
    match m d with
    | (Normal a, d') => k a d'
    | (Throw e, d') => (Throw e, d')
    end.

Definition completing {A} (c : Completion A) : Script A := fun d => (c, d).

(** [try { body } catch (error) { handler error } finally { cleanup }] *)
Definition try_catch_finally {A} (body : Script A) (handler : JsValue -> Script A)
  (cleanup : Script unit) : Script A :=
  fun d =>
    let (completion, d1) :=
      match body d with
      | (Normal a, d') => (Normal a, d')
      | (Throw e, d') => handler e d'
      end in
    match cleanup d1 with
    | (Normal _, d2) => (completion, d2)
    | (Throw e, d2) => (Throw e, d2)
    end.

Declare Scope script_scope.
Delimit Scope script_scope with script.
Notation "x <- m ;; k" := (and_then m (fun x => k))
  (at level 61, m at next level, right associativity) : script_scope.
Notation "m ;; k" := (and_then m (fun _ => k))
  (at level 61, right associativity) : script_scope.

Definition update (f : Dom -> Dom) : Script unit := fun d => (Normal tt, f d).

Definition set_output_textContent (text : JsString) : Script unit :=
  update (fun d =>
    {| prompt_input_value := prompt_input_value d;
       output_textContent := text;
       output_classList := output_classList d;
       loading_classList := loading_classList d;
       submit_button_disabled := submit_button_disabled d;
       defaultPrevented := defaultPrevented d;
       browser_console := browser_console d;
       fetched := fetched d |}).

Definition change_output_classList (f : list JsString -> list JsString) : Script unit :=
  update (fun d =>
    {| prompt_input_value := prompt_input_value d;
       output_textContent := output_textContent d;
       output_classList := f (output_classList d);
       loading_classList := loading_classList d;
       submit_button_disabled := submit_button_disabled d;
       defaultPrevented := defaultPrevented d;
       browser_console := browser_console d;
       fetched := fetched d |}).

Definition change_loading_classList (f : list JsString -> list JsString) : Script unit :=
  update (fun d =>
    {| prompt_input_value := prompt_input_value d;
       output_textContent := output_textContent d;
       output_classList := output_classList d;
       loading_classList := f (loading_classList d);
       submit_button_disabled := submit_button_disabled d;
       defaultPrevented := defaultPrevented d;
       browser_console := browser_console d;
       fetched := fetched d |}).

Definition set_button_disabled (b : bool) : Script unit :=
  update (fun d =>
    {| prompt_input_value := prompt_input_value d;
       output_textContent := output_textContent d;
       output_classList := output_classList d;
       loading_classList := loading_classList d;
       submit_button_disabled := b;
       defaultPrevented := defaultPrevented d;
       browser_console := browser_console d;
       fetched := fetched d |}).

Definition preventDefault : Script unit :=
  update (fun d =>
    {| prompt_input_value := prompt_input_value d;
       output_textContent := output_textContent d;
       output_classList := output_classList d;
       loading_classList := loading_classList d;
       submit_button_disabled := submit_button_disabled d;
       defaultPrevented := true;
       browser_console := browser_console d;
       fetched := fetched d |}).

Definition browser_console_error (xs : list JsValue) : Script unit :=
  update (fun d =>
    {| prompt_input_value := prompt_input_value d;
       output_textContent := output_textContent d;
       output_classList := output_classList d;
       loading_classList := loading_classList d;
       submit_button_disabled := submit_button_disabled d;
       defaultPrevented := defaultPrevented d;
       browser_console := browser_console d
                          ++ [{| level := console_error; args := xs |}];
       fetched := fetched d |}).

(** [await fetch(url, init)] *)
Definition await_fetch (fetch : Network) (call : FetchCall) : Script FetchResponse :=
  fun d =>
    let d' := {| prompt_input_value := prompt_input_value d;
                 output_textContent := output_textContent d;
                 output_classList := output_classList d;
                 loading_classList := loading_classList d;
                 submit_button_disabled := submit_button_disabled d;
                 defaultPrevented := defaultPrevented d;
                 browser_console := browser_console d;
                 fetched := fetched d ++ [call] |} in
    match fetch (fetched d) call with
    | fetch_fulfilled response => (Normal response, d')
    | fetch_rejected reason => (Throw reason, d')
    end.

(** [await response.json()] *)
Definition await_json (response : FetchResponse) : Script JsValue :=
  fun d =>
    match response_json response with
    | Fulfilled v => (Normal v, d)
    | Rejected reason => (Throw reason, d)
    end.

Section Listener.

Variable Number_toString : spec_float -> JsString.
Variable fetch : Network.

(** The [try] block of the listener. *)
Definition submit_try (prompt : JsString) : Script unit :=
  (response <- await_fetch fetch
                 {| fetch_url := str "/api/generate";
                    fetch_method := str "POST";
                    fetch_headers := [(str "Content-Type", str "application/json")];
                    fetch_body := JSON_stringify (JObject [(str "prompt", JString prompt)]) |} ;;
   (if negb (response_ok response) then
      errorData <- await_json response ;;
      error <- completing (Get errorData "error") ;;
      message <- completing
                   (ToString Number_toString
                      (or_else error
                         (JString (str "HTTP error! Status: "
                                   ++ decimal (response_status response))))) ;;
      throw (JError (str "Error") message)
    else done tt) ;;
   data <- await_json response ;;
   text <- completing (Get data "text") ;;
   content <- completing (DOMString_or_null Number_toString text) ;;
   set_output_textContent content)%script.

(** The [catch] block. *)
Definition submit_catch (error : JsValue) : Script unit :=
  (browser_console_error [JString (str "API Error:"); error] ;;
   message <- completing (Get error "message") ;;
   shown <- completing (ToString Number_toString message) ;;
   set_output_textContent
     (str "Error: " ++ shown
      ++ str ". Please ensure the GEMINI_API_KEY is correctly configured on the Cloud Run service.") ;;
   change_output_classList (classList_add "text-red-600") ;;
   change_output_classList (classList_add "italic"))%script.

(** The [finally] block. *)
Definition submit_finally : Script unit :=
  (change_loading_classList (classList_add "hidden") ;;
   set_button_disabled false)%script.

(** One run of the submit listener, from the event to the end of its
    [finally] block, with no other script running in between. *)
Definition submit_listener : Script unit :=
  (preventDefault ;;
   prompt <- (fun d => (Normal (prompt_input_value d), d)) ;;
   set_output_textContent [] ;;
   change_loading_classList (classList_remove "hidden") ;;
   set_button_disabled true ;;
   change_output_classList (classList_remove "text-red-600") ;;
   change_output_classList (classList_remove "italic") ;;
   try_catch_finally (submit_try prompt) submit_catch submit_finally)%script.

End Listener.

(** The page as the browser has parsed it, with [value] typed into the
    input. *)
Definition loaded_page (value : JsString) : Dom :=
  {| prompt_input_value := value;
     output_textContent :=
       join_lines [EmptyString;
                   "                The AI's response will appear here.";
                   "            "];
     output_classList :=
       map str ["whitespace-pre-wrap"; "text-gray-800"; "bg-gray-50"; "p-4"; "rounded-xl";
                "border-2"; "border-dashed"; "border-blue-200"; "min-h-24"; "flex";
                "items-center"; "justify-center"; "text-base"; "italic"; "text-center"];
     loading_classList := map str ["text-center"; "text-blue-600"; "mt-4"; "hidden"];
     submit_button_disabled := false;
     defaultPrevented := false;
     browser_console := [];
     fetched := [] |}.

(** A network that answers every call with the status and the parsed JSON
    body given. *)
Definition answering (status : N) (parsed : JsValue) : Network :=
  fun _ _ => fetch_fulfilled {| response_status := status; response_json := Fulfilled parsed |}.

(** The one call of the listener for the prompt [prompt]. *)
Definition submit_call (prompt : JsString) : FetchCall :=
  {| fetch_url := str "/api/generate";
     fetch_method := str "POST";
     fetch_headers := [(str "Content-Type", str "application/json")];
     fetch_body := Some (JsonObject [(str "prompt", JsonString prompt)]) |}.

(** The page when the listener enters its [try] block. *)
Definition prepared (d : Dom) : Dom :=
  {| prompt_input_value := prompt_input_value d;
     output_textContent := [];
     output_classList :=
       classList_remove "italic" (classList_remove "text-red-600" (output_classList d));
     loading_classList := classList_remove "hidden" (loading_classList d);
     submit_button_disabled := true;
     defaultPrevented := true;
     browser_console := browser_console d;
     fetched := fetched d |}.

(** The page when the call has been made and nothing shown yet. *)
Definition sent (d : Dom) : Dom :=
  {| prompt_input_value := prompt_input_value d;
     output_textContent := [];
     output_classList :=
       classList_remove "italic" (classList_remove "text-red-600" (output_classList d));
     loading_classList := classList_remove "hidden" (loading_classList d);
     submit_button_disabled := true;
     defaultPrevented := true;
     browser_console := browser_console d;
     fetched := fetched d ++ [submit_call (prompt_input_value d)] |}.

(** The text the page shows for an error with the message [message]. *)
Definition error_text (message : JsString) : JsString :=
  str "Error: " ++ message
  ++ str ". Please ensure the GEMINI_API_KEY is correctly configured on the Cloud Run service.".

(** ** Property reads *)

Lemma own_prop_nullish v k x : own_prop v k = Some x -> nullish v = false.
Proof. destruct v; simpl; congruence. Qed.

Lemma own_index_nullish v i x : own_index v i = Some x -> nullish v = false.
Proof. destruct v; simpl; congruence. Qed.

Lemma Get_own v k x : own_prop v (str k) = Some x -> Get v k = Normal x.
Proof.
  intros H. unfold Get. rewrite (own_prop_nullish _ _ _ H), H. reflexivity.
Qed.

Lemma Get_missing v k :
  nullish v = false -> own_prop v (str k) = None -> Get v k = Normal JUndefined.
Proof. intros Hv H. unfold Get. rewrite Hv, H. reflexivity. Qed.

Lemma GetIndex_own v i x : own_index v i = Some x -> GetIndex v i = Normal x.
Proof.
  intros H. unfold GetIndex. rewrite (own_index_nullish _ _ _ H), H. reflexivity.
Qed.

Lemma truthy_not_nullish v : truthy v = true -> nullish v = false.
Proof. destruct v; simpl; congruence. Qed.

Lemma truthy_prompt_body req : truthy (prompt_of req) = true -> nullish (body req) = false.
Proof.
  unfold prompt_of. destruct (own_prop (body req) (str "prompt")) eqn:E.
  - intros _. exact (own_prop_nullish _ _ _ E).
  - simpl. discriminate.
Qed.

Lemma Destructure_prompt req :
  nullish (body req) = false ->
  Destructure (body req) "prompt" "req.body" = Normal (prompt_of req).
Proof. intros H. unfold Destructure, prompt_of. rewrite H. reflexivity. Qed.

(** The handler reads the text of the first part, when there is a first
    part. *)
Lemma generated_text_first_part response part :
  first_part response = Some part -> generated_text response = Get part "text".
Proof.
  unfold first_part, generated_text. intros H.
  destruct (own_prop response (str "candidates")) as [candidates|] eqn:E1; [|discriminate].
  rewrite (Get_own _ "candidates" _ E1).
  destruct (own_index candidates 0) as [candidate|] eqn:E2; [|discriminate].
  rewrite (GetIndex_own _ _ _ E2).
  destruct (own_prop candidate (str "content")) as [content|] eqn:E3; [|discriminate].
  rewrite (Get_own _ "content" _ E3).
  destruct (own_prop content (str "parts")) as [parts|] eqn:E4; [|discriminate].
  rewrite (Get_own _ "parts" _ E4).
  rewrite (GetIndex_own _ _ _ H). reflexivity.
Qed.

(** ** The handler, path by path *)

Lemma generate_handler_unconfigured req res w :
  generate_handler None req res w
  = (Normal (json (status res 503)
               (JObject [(str "error", JString (str "AI service is unavailable. The server is missing required configuration (API Key)."))])),
     {| console := console w
                   ++ [{| level := console_error;
                          args := [JString (str "Critical Error: AI service is not configured because GEMINI_API_KEY is missing from environment.")] |}];
        upstream := upstream w |}).
Proof. reflexivity. Qed.

Lemma generate_handler_invalid ai req res w :
  nullish (body req) = false ->
  truthy (prompt_of req) = false ->
  generate_handler (Some ai) req res w
  = (Normal (json (status res 400)
               (JObject [(str "error", JString (str "Prompt is required in the request body."))])),
     w).
Proof.
  intros Hb Hp. unfold generate_handler, bind, lift.
  rewrite (Destructure_prompt _ Hb), Hp. reflexivity.
Qed.

(** With a truthy prompt the handler makes one call and then depends on what
    the call settles with. *)
Lemma generate_handler_call ai req res w :
  truthy (prompt_of req) = true ->
  generate_handler (Some ai) req res w
  = let w' := {| console := console w;
                 upstream := upstream w ++ [expected_request (prompt_of req)] |} in
    let failed reason :=
      (Normal (json (status res 500)
                 (JObject [(str "error", JString (str "Failed to generate content from the AI model due to an internal API error."))])),
       {| console := console w
                     ++ [{| level := console_error;
                            args := [JString (str "Gemini API call failed:"); reason] |}];
          upstream := upstream w' |}) in
    match generateContent (models ai) (upstream w) (expected_request (prompt_of req)) with
    | Rejected reason => failed reason
    | Fulfilled response =>
        match generated_text response with
        | Throw reason => failed reason
        | Normal generatedText =>
            (Normal (json res (JObject [(str "text", generatedText)])), w')
        end
    end.
Proof.
  intros Hp. unfold generate_handler, bind, lift.
  rewrite (Destructure_prompt _ (truthy_prompt_body _ Hp)), Hp.
  unfold try_catch, await_generateContent, bind, lift, expected_request.
  cbn [negb].
  destruct (generateContent _ _ _) as [response|reason]; [|reflexivity].
  destruct (generated_text response); reflexivity.
Qed.

(** A request without a parsed body makes the destructuring throw, outside
    the [try]: the handler sends nothing. *)
Lemma generate_handler_no_body ai req res w :
  nullish (body req) = true ->
  generate_handler (Some ai) req res w
  = (Throw (TypeError_destructure (body req) (str "prompt") (str "req.body")), w).
Proof.
  intros Hb. unfold generate_handler, bind, lift, Destructure. rewrite Hb. reflexivity.
Qed.

(** The two scenarios of the specification, down to the text of the body. *)
Example scenario_haiku Number_toString :
  match fst (generate_handler
               (Some (resolving (one_candidate
                                   (JObject [(str "text",
                                              JString (str "Cold start, then warm glow..."))]))))
               haiku new_response quiet) with
  | Normal {| statusCode := code; payload := SentJson j |} =>
      code = 200%Z
      /\ json_text Number_toString j = quoted "{#text#:#Cold start, then warm glow...#}"
  | _ => False
  end.
Proof. vm_compute. split; reflexivity. Qed.

Example scenario_empty_object Number_toString :
  match fst (generate_handler (Some (resolving JNull)) (post (JObject [])) new_response quiet) with
  | Normal {| statusCode := code; payload := SentJson j |} =>
      code = 400%Z
      /\ json_text Number_toString j
         = quoted "{#error#:#Prompt is required in the request body.#}"
  | _ => False
  end.
Proof. vm_compute. split; reflexivity. Qed.

(** QuoteJSONString escapes the quote, the backslash, control characters and
    lone surrogates, and keeps a surrogate pair. *)
Example quote_escapes :
  QuoteJSONString [97; 34; 92; 10; 1; 55357; 56832; 56832; 233]%N
  = [34; 97; 92; 34; 92; 92; 92; 110; 92; 117; 48; 48; 48; 49;
     55357; 56832; 92; 117; 100; 101; 48; 48; 233; 34]%N.
Proof. reflexivity. Qed.

(** ** The contract of the proxy *)

(** C1: with the client configured, a prompt that is a non-empty string and
    an upstream call that resolves with a response whose first candidate's
    first content part has the text [text], the handler answers with status
    200 and the body [{ text: text }]. *)
Theorem generate_success ai req w prompt response part text :
  own_prop (body req) (str "prompt") = Some (JString prompt) ->
  prompt <> [] ->
  generateContent (models ai) (upstream w) (expected_request (JString prompt))
  = Fulfilled response ->
  first_part response = Some part ->
  own_prop part (str "text") = Some (JString text) ->
  fst (generate_handler (Some ai) req new_response w)
  = Normal {| statusCode := 200; headers := [];
              payload := SentJson (JsonObject [(str "text", JsonString text)]) |}.
Proof.
  intros Hprompt Hne Hcall Hpart Htext.
  assert (Hp : prompt_of req = JString prompt) by (unfold prompt_of; now rewrite Hprompt).
  rewrite generate_handler_call.
  - rewrite Hp. cbv zeta. rewrite Hcall.
    rewrite (generated_text_first_part _ _ Hpart), (Get_own _ "text" _ Htext).
    reflexivity.
  - rewrite Hp. destruct prompt; [contradiction | reflexivity].
Qed.

Lemma generate_success_witness :
  fst (generate_handler
         (Some (resolving (one_candidate
                             (JObject [(str "text", JString (str "Cold start, then warm glow..."))]))))
         haiku new_response quiet)
  = Normal {| statusCode := 200; headers := [];
              payload := SentJson (JsonObject [(str "text",
                                                JsonString (str "Cold start, then warm glow..."))]) |}.
Proof.
  apply (generate_success _ haiku quiet
           (str "Write a haiku about serverless computing")
           (one_candidate (JObject [(str "text", JString (str "Cold start, then warm glow..."))]))
           (JObject [(str "text", JString (str "Cold start, then warm glow..."))])).
  - reflexivity.
  - discriminate.
  - reflexivity.
  - reflexivity.
  - reflexivity.
Defined.

(** What startup leaves in [ai] when the credential is unset or empty. *)
Lemma init_ai_absent new_GoogleGenAI env w ai w' :
  truthy (process_env env "GEMINI_API_KEY") = false ->
  init_ai new_GoogleGenAI env w = (Normal ai, w') ->
  ai = None.
Proof.
  intros Hkey. unfold init_ai. rewrite Hkey.
  unfold bind, console_write, ret. congruence.
Qed.

(** C2: when no credential was configured at startup the client handle is
    absent, and then every request to the generation endpoint, whatever its
    body, is answered with status 503 and the fixed service-unavailable body,
    and no upstream call is made. *)
Theorem generate_unconfigured new_GoogleGenAI env w0 ai w1 req w :
  truthy (process_env env "GEMINI_API_KEY") = false ->
  init_ai new_GoogleGenAI env w0 = (Normal ai, w1) ->
  fst (generate_handler ai req new_response w)
  = Normal {| statusCode := 503; headers := [];
              payload := error_body "AI service is unavailable. The server is missing required configuration (API Key)." |}
  /\ upstream (snd (generate_handler ai req new_response w)) = upstream w.
Proof.
  intros Hkey Hinit.
  rewrite (init_ai_absent _ _ _ _ _ Hkey Hinit), generate_handler_unconfigured.
  split; reflexivity.
Qed.

Lemma generate_unconfigured_witness :
  fst (generate_handler None haiku new_response quiet)
  = Normal {| statusCode := 503; headers := [];
              payload := error_body "AI service is unavailable. The server is missing required configuration (API Key)." |}
  /\ upstream (snd (generate_handler None haiku new_response quiet)) = upstream quiet.
Proof.
  apply (generate_unconfigured (fun _ => resolving JNull) [] quiet None
           (snd (init_ai (fun _ => resolving JNull) [] quiet)) haiku quiet).
  - reflexivity.
  - reflexivity.
Defined.

(** C3: with the client configured, a request that carries no parsed body
    ([req.body] is [undefined]) has no prompt, and yet it is not answered
    with 400: the destructuring of line 128 throws before the check of the
    prompt and outside the [try], and the handler sends nothing. *)
Theorem generate_no_body_unanswered ai w :
  truthy (prompt_of (post JUndefined)) = false
  /\ generate_handler (Some ai) (post JUndefined) new_response w
     = (Throw (TypeError_destructure JUndefined (str "prompt") (str "req.body")), w).
Proof.
  split; [reflexivity|].
  apply (generate_handler_no_body ai (post JUndefined) new_response w). reflexivity.
Qed.

(** X17: with the client configured and a request body that is a parsed
    value (not [undefined] or [null]), a missing [prompt], or a falsy one
    such as the empty string, is answered with status 400 and the body
    [{ error: "Prompt is required in the request body." }]; nothing is logged
    and no upstream call is made. *)
Theorem generate_prompt_required ai req w :
  nullish (body req) = false ->
  truthy (prompt_of req) = false ->
  fst (generate_handler (Some ai) req new_response w)
  = Normal {| statusCode := 400; headers := [];
              payload := error_body "Prompt is required in the request body." |}
  /\ snd (generate_handler (Some ai) req new_response w) = w.
Proof.
  intros Hb Hp. rewrite (generate_handler_invalid _ _ _ _ Hb Hp).
  split; reflexivity.
Qed.

Lemma generate_prompt_required_witness :
  fst (generate_handler (Some (resolving JNull)) (post (JObject [])) new_response quiet)
  = Normal {| statusCode := 400; headers := [];
              payload := error_body "Prompt is required in the request body." |}
  /\ snd (generate_handler (Some (resolving JNull)) (post (JObject [])) new_response quiet)
     = quiet.
Proof.
  apply (generate_prompt_required (resolving JNull) (post (JObject [])) quiet).
  - reflexivity.
  - reflexivity.
Defined.

(** C4: with the client configured and a truthy prompt, an upstream call that
    is rejected, or that resolves with a response of the wrong shape (an
    empty candidates list, say), is answered with status 500 and the fixed
    body; the reason of the failure is no part of the response. *)
Theorem generate_upstream_failure ai req w :
  truthy (prompt_of req) = true ->
  upstream_fails ai w (expected_request (prompt_of req)) ->
  fst (generate_handler (Some ai) req new_response w)
  = Normal {| statusCode := 500; headers := [];
              payload := error_body "Failed to generate content from the AI model due to an internal API error." |}.
Proof.
  intros Hp Hfail. rewrite (generate_handler_call _ _ _ _ Hp). cbv zeta.
  unfold upstream_fails in Hfail.
  destruct (generateContent _ _ _) as [response|reason].
  - destruct Hfail as [e He]. rewrite He. reflexivity.
  - reflexivity.
Qed.

Lemma generate_upstream_failure_witness :
  fst (generate_handler (Some (resolving (JObject [(str "candidates", JArray [])])))
         haiku new_response quiet)
  = Normal {| statusCode := 500; headers := [];
              payload := error_body "Failed to generate content from the AI model due to an internal API error." |}.
Proof.
  apply (generate_upstream_failure
           (resolving (JObject [(str "candidates", JArray [])])) haiku quiet).
  - reflexivity.
  - simpl. eexists. reflexivity.
Defined.

(** C5: a request that reaches the upstream call makes exactly one call, with
    the model "gemini-2.5-flash", a contents list of one user-role message
    whose one part has the prompt as its text, and maxOutputTokens 256. *)
Theorem generate_call_configuration ai req w :
  truthy (prompt_of req) = true ->
  upstream (snd (generate_handler (Some ai) req new_response w))
  = upstream w
    ++ [JObject
          [(str "model", JString (str "gemini-2.5-flash"));
           (str "contents",
            JArray [JObject [(str "role", JString (str "user"));
                             (str "parts",
                              JArray [JObject [(str "text", prompt_of req)]])]]);
           (str "config", JObject [(str "maxOutputTokens", JNumber (num 256))])]].
Proof.
  intros Hp. rewrite (generate_handler_call _ _ _ _ Hp). cbv zeta.
  destruct (generateContent _ _ _) as [response|reason].
  - destruct (generated_text response); reflexivity.
  - reflexivity.
Qed.

Lemma generate_call_configuration_witness :
  upstream (snd (generate_handler (Some (rejecting JNull)) haiku new_response quiet))
  = upstream quiet
    ++ [JObject
          [(str "model", JString (str "gemini-2.5-flash"));
           (str "contents",
            JArray [JObject [(str "role", JString (str "user"));
                             (str "parts",
                              JArray [JObject [(str "text", prompt_of haiku)]])]]);
           (str "config", JObject [(str "maxOutputTokens", JNumber (num 256))])]].
Proof.
  apply (generate_call_configuration (rejecting JNull) haiku quiet).
  reflexivity.
Defined.

(** C6: two requests with the same prompt, served by the same client handle
    over a deterministic upstream, get the same response, whatever else the
    requests carry and whatever the process has logged and called before. *)
Theorem generate_same_prompt_same_response ai req1 req2 w1 w2 :
  (forall client, ai = Some client -> deterministic client) ->
  nullish (body req1) = false ->
  nullish (body req2) = false ->
  prompt_of req1 = prompt_of req2 ->
  fst (generate_handler ai req1 new_response w1)
  = fst (generate_handler ai req2 new_response w2).
Proof.
  intros Hdet Hb1 Hb2 Hsame.
  destruct ai as [client|].
  - destruct (truthy (prompt_of req1)) eqn:Hp1.
    + assert (Hp2 : truthy (prompt_of req2) = true) by (now rewrite <- Hsame).
      rewrite (generate_handler_call _ _ _ _ Hp1), (generate_handler_call _ _ _ _ Hp2).
      cbv zeta. rewrite <- Hsame.
      rewrite (Hdet client eq_refl (upstream w1) (upstream w2)).
      destruct (generateContent _ _ _) as [response|reason].
      * destruct (generated_text response); reflexivity.
      * reflexivity.
    + assert (Hp2 : truthy (prompt_of req2) = false) by (now rewrite <- Hsame).
      rewrite (generate_handler_invalid _ _ _ _ Hb1 Hp1).
      rewrite (generate_handler_invalid _ _ _ _ Hb2 Hp2).
      reflexivity.
  - rewrite !generate_handler_unconfigured. reflexivity.
Qed.

Lemma generate_same_prompt_same_response_witness :
  fst (generate_handler
         (Some (resolving (one_candidate (JObject [(str "text", JString (str "ok"))]))))
         haiku new_response quiet)
  = fst (generate_handler
           (Some (resolving (one_candidate (JObject [(str "text", JString (str "ok"))]))))
           haiku new_response
           (snd (generate_handler
                   (Some (resolving (one_candidate (JObject [(str "text", JString (str "ok"))]))))
                   haiku new_response quiet))).
Proof.
  apply (generate_same_prompt_same_response
           (Some (resolving (one_candidate (JObject [(str "text", JString (str "ok"))]))))
           haiku haiku quiet).
  - intros client H. injection H as <-. intros h1 h2 request. reflexivity.
  - reflexivity.
  - reflexivity.
  - reflexivity.
Defined.

(** What the page route answers to a GET: 304 without a body to a fresh
    conditional request, the page otherwise. *)
Lemma send_html ETag req text :
  method req = str "GET" ->
  send ETag req
    {| statusCode := 200; headers := [(str "Content-Type", str "text/html")];
       payload := NotSent |} text
  = if fresh (req_headers req) (Some (ETag text)) then
      {| statusCode := 304;
         headers := match ETag text with
                    | [] => []
                    | e :: tag => [(str "ETag", e :: tag)]
                    end;
         payload := SentText [] |}
    else
      {| statusCode := 200;
         headers := match ETag text with
                    | [] => []
                    | e :: tag => [(str "ETag", e :: tag)]
                    end
                    ++ [(str "Content-Length", decimal (byteLength text));
                        (str "Content-Type", str "text/html; charset=utf-8")];
         payload := SentText text |}.
Proof.
  intros Hmethod. unfold send, req_fresh. rewrite Hmethod.
  destruct (ETag text) as [|e tag] eqn:Etag.
  - set (f := fresh (req_headers req) (Some [])).
    cbn -[fresh decimal byteLength].
    change (fresh (req_headers req) _) with f.
    destruct f; reflexivity.
  - set (f := fresh (req_headers req) (Some (e :: tag))).
    cbn -[fresh decimal byteLength].
    change (fresh (req_headers req) _) with f.
    destruct f; reflexivity.
Qed.

Lemma root_handler_GET ETag req w :
  method req = str "GET" ->
  root_handler ETag req new_response w
  = (Normal
       (if fresh (req_headers req) (Some (ETag page)) then
          {| statusCode := 304;
             headers := match ETag page with
                        | [] => []
                        | e :: tag => [(str "ETag", e :: tag)]
                        end;
             payload := SentText [] |}
        else
          {| statusCode := 200;
             headers := match ETag page with
                        | [] => []
                        | e :: tag => [(str "ETag", e :: tag)]
                        end
                        ++ [(str "Content-Length", decimal (byteLength page));
                            (str "Content-Type", str "text/html; charset=utf-8")];
             payload := SentText page |}), w).
Proof.
  intros Hmethod. unfold root_handler, ret.
  change (setHeader new_response "Content-Type" "text/html")
    with {| statusCode := 200; headers := [(str "Content-Type", str "text/html")];
            payload := NotSent |}.
  rewrite (send_html ETag req page Hmethod). reflexivity.
Qed.

(** A request without If-None-Match and without If-Modified-Since is never
    fresh. *)
Lemma fresh_unconditional reqHeaders etag :
  assoc (str "if-none-match") reqHeaders = None ->
  assoc (str "if-modified-since") reqHeaders = None ->
  fresh reqHeaders etag = false.
Proof. intros H1 H2. unfold fresh. rewrite H1, H2. reflexivity. Qed.

(** C7 as stated fails for a conditional request: whatever the entity tag
    function, a GET / with the header If-None-Match: * is not answered
    with status 200 but with 304, without the page. *)
Lemma conditional_get_not_modified :
  ~ (exists ETag res,
        fst (root_handler ETag conditional_get_root new_response quiet) = Normal res
        /\ statusCode res = 200%Z).
Proof.
  intros (ETag & res & Hres & Hstatus).
  rewrite (root_handler_GET ETag conditional_get_root quiet eq_refl) in Hres.
  change (fresh (req_headers conditional_get_root) (Some (ETag page))) with true in Hres.
  cbn [fst] in Hres. injection Hres as <-. discriminate.
Qed.

(** C7, amended: a GET / that is not a fresh conditional request is
    answered with status 200, the Content-Type text/html; charset=utf-8 and
    the one fixed page, which contains the text "Serverless AI Content
    Generator"; a fresh one (its If-None-Match is * or lists the entity tag
    of the page, and its Cache-Control has no no-cache) is answered with 304,
    no Content-Type and an empty body.  A request without If-None-Match and
    If-Modified-Since is never fresh.  The world is left as it was. *)
Theorem root_page ETag req w :
  method req = str "GET" ->
  exists res,
    root_handler ETag req new_response w = (Normal res, w)
    /\ (fresh (req_headers req) (Some (ETag page)) = false ->
        statusCode res = 200%Z
        /\ getHeader res "Content-Type" = Some (str "text/html; charset=utf-8")
        /\ payload res = SentText page)
    /\ (fresh (req_headers req) (Some (ETag page)) = true ->
        statusCode res = 304%Z
        /\ getHeader res "Content-Type" = None
        /\ payload res = SentText [])
    /\ (request_header req "if-none-match" = None ->
        request_header req "if-modified-since" = None ->
        fresh (req_headers req) (Some (ETag page)) = false)
    /\ exists before after,
         page = before ++ str "Serverless AI Content Generator" ++ after.
Proof.
  intros Hmethod. rewrite (root_handler_GET ETag req w Hmethod).
  eexists. split; [reflexivity|].
  destruct (fresh (req_headers req) (Some (ETag page))) eqn:Hfresh.
  - split; [discriminate|]. split.
    + intros _. destruct (ETag page); repeat split.
    + split.
      * intros H1 H2. rewrite (fresh_unconditional _ _ H1 H2) in Hfresh. discriminate.
      * exists (firstn 595 page), (skipn 626 page). vm_compute. reflexivity.
  - split.
    + intros _. destruct (ETag page); repeat split.
    + split; [discriminate|]. split; [reflexivity|].
      exists (firstn 595 page), (skipn 626 page). vm_compute. reflexivity.
Qed.

Lemma root_page_witness :
  exists res,
    root_handler length_tag get_root new_response quiet = (Normal res, quiet)
    /\ (fresh (req_headers get_root) (Some (length_tag page)) = false ->
        statusCode res = 200%Z
        /\ getHeader res "Content-Type" = Some (str "text/html; charset=utf-8")
        /\ payload res = SentText page)
    /\ (fresh (req_headers get_root) (Some (length_tag page)) = true ->
        statusCode res = 304%Z
        /\ getHeader res "Content-Type" = None
        /\ payload res = SentText [])
    /\ (request_header get_root "if-none-match" = None ->
        request_header get_root "if-modified-since" = None ->
        fresh (req_headers get_root) (Some (length_tag page)) = false)
    /\ exists before after,
         page = before ++ str "Serverless AI Content Generator" ++ after.
Proof.
  apply (root_page length_tag get_root quiet).
  reflexivity.
Defined.

(** C8 as stated fails when PORT is set to the empty string: the port is
    8080 then. *)
Lemma PORT_empty_string :
  assoc (str "PORT") [(str "PORT", str EmptyString)] = Some (str EmptyString)
  /\ PORT [(str "PORT", str EmptyString)] <> JString (str EmptyString)
  /\ PORT [(str "PORT", str EmptyString)] = JNumber (num 8080).
Proof. repeat split. discriminate. Qed.

(** C8, amended: the listening port is the value of PORT in the environment
    when that value is a non-empty string, and 8080 when PORT is unset or
    empty. *)
Theorem PORT_or_default env :
  PORT env = match assoc (str "PORT") env with
             | Some (c :: value) => JString (c :: value)
             | Some [] | None => JNumber (num 8080)
             end.
Proof.
  unfold PORT, or_else, process_env.
  destruct (assoc (str "PORT") env) as [[|c value]|]; reflexivity.
Qed.

(** C9 as stated fails when the client is not configured: a request whose
    prompt is the number 42 is answered with 503 and nothing is forwarded. *)
Lemma unconfigured_forwards_nothing :
  truthy (prompt_of (post (JObject [(str "prompt", JNumber (num 42))]))) = true
  /\ typeof_string (prompt_of (post (JObject [(str "prompt", JNumber (num 42))]))) = false
  /\ upstream (snd (generate_handler None
                      (post (JObject [(str "prompt", JNumber (num 42))]))
                      new_response quiet))
     <> upstream quiet
        ++ [expected_request (prompt_of (post (JObject [(str "prompt", JNumber (num 42))])))].
Proof. repeat split. discriminate. Qed.

(** C9, amended: with the client configured, a request whose prompt is truthy
    and not a string is not answered with 400; the value is forwarded
    unchanged as the text of the message part of the upstream call. *)
Theorem generate_forwards_non_string ai req w :
  truthy (prompt_of req) = true ->
  typeof_string (prompt_of req) = false ->
  (exists res, fst (generate_handler (Some ai) req new_response w) = Normal res
               /\ statusCode res <> 400%Z)
  /\ upstream (snd (generate_handler (Some ai) req new_response w))
     = upstream w ++ [expected_request (prompt_of req)].
Proof.
  intros Hp _. rewrite (generate_handler_call _ _ _ _ Hp). cbv zeta.
  destruct (generateContent _ _ _) as [response|reason].
  - destruct (generated_text response).
    + split; [eexists; split; [reflexivity | simpl; lia] | reflexivity].
    + split; [eexists; split; [reflexivity | simpl; lia] | reflexivity].
  - split; [eexists; split; [reflexivity | simpl; lia] | reflexivity].
Qed.

Lemma generate_forwards_non_string_witness :
  (exists res,
      fst (generate_handler (Some (rejecting JNull))
             (post (JObject [(str "prompt", JArray [])])) new_response quiet)
      = Normal res
      /\ statusCode res <> 400%Z)
  /\ upstream (snd (generate_handler (Some (rejecting JNull))
                      (post (JObject [(str "prompt", JArray [])])) new_response quiet))
     = upstream quiet
       ++ [expected_request (prompt_of (post (JObject [(str "prompt", JArray [])])))].
Proof.
  apply (generate_forwards_non_string (rejecting JNull)
           (post (JObject [(str "prompt", JArray [])])) quiet).
  - reflexivity.
  - reflexivity.
Defined.

(** C10: when the upstream call resolves with a response whose first
    candidate has a first content part, and that part has no [text]
    property, the handler answers with status 200 and a JSON body that has
    no field, whose text is the two braces. *)
Theorem generate_part_without_text ai req w response part :
  truthy (prompt_of req) = true ->
  generateContent (models ai) (upstream w) (expected_request (prompt_of req))
  = Fulfilled response ->
  first_part response = Some part ->
  nullish part = false ->
  own_prop part (str "text") = None ->
  fst (generate_handler (Some ai) req new_response w)
  = Normal {| statusCode := 200; headers := []; payload := SentJson (JsonObject []) |}
  /\ json_field (JsonObject []) (str "text") = None
  /\ forall Number_toString, json_text Number_toString (JsonObject []) = str "{}".
Proof.
  intros Hp Hcall Hpart Hobj Htext.
  rewrite (generate_handler_call _ _ _ _ Hp). cbv zeta. rewrite Hcall.
  rewrite (generated_text_first_part _ _ Hpart), (Get_missing _ "text" Hobj Htext).
  repeat split.
Qed.

Lemma generate_part_without_text_witness :
  fst (generate_handler
         (Some (resolving (one_candidate (JObject [(str "inlineData", JNull)]))))
         haiku new_response quiet)
  = Normal {| statusCode := 200; headers := []; payload := SentJson (JsonObject []) |}
  /\ json_field (JsonObject []) (str "text") = None
  /\ forall Number_toString, json_text Number_toString (JsonObject []) = str "{}".
Proof.
  apply (generate_part_without_text
           (resolving (one_candidate (JObject [(str "inlineData", JNull)])))
           haiku quiet
           (one_candidate (JObject [(str "inlineData", JNull)]))
           (JObject [(str "inlineData", JNull)])).
  - reflexivity.
  - reflexivity.
  - reflexivity.
  - reflexivity.
  - reflexivity.
Defined.

(** ** More on startup and on the generation handler *)

Lemma Get_Normal_inv v k x :
  Get v k = Normal x ->
  nullish v = false
  /\ x = match own_prop v (str k) with Some y => y | None => JUndefined end.
Proof.
  unfold Get. destruct (nullish v); [discriminate|].
  intros H. injection H as <-. split; reflexivity.
Qed.

Lemma GetIndex_Normal_inv v i x :
  GetIndex v i = Normal x ->
  nullish v = false
  /\ x = match own_index v i with Some y => y | None => JUndefined end.
Proof.
  unfold GetIndex. destruct (nullish v); [discriminate|].
  intros H. injection H as <-. split; reflexivity.
Qed.

(** A read that gives a value other than [undefined] and [null] found a
    property. *)
Lemma Get_found v k x :
  Get v k = Normal x -> nullish x = false -> own_prop v (str k) = Some x.
Proof.
  intros H N. apply Get_Normal_inv in H. destruct H as [_ ->].
  destruct (own_prop v (str k)); [reflexivity | discriminate].
Qed.

Lemma GetIndex_found v i x :
  GetIndex v i = Normal x -> nullish x = false -> own_index v i = Some x.
Proof.
  intros H N. apply GetIndex_Normal_inv in H. destruct H as [_ ->].
  destruct (own_index v i); [reflexivity | discriminate].
Qed.

(** When the handler's read of the text does not throw, the response has a
    first part. *)
Lemma generated_text_Normal_inv response text :
  generated_text response = Normal text ->
  exists part,
    first_part response = Some part
    /\ nullish part = false
    /\ text = match own_prop part (str "text") with Some y => y | None => JUndefined end.
Proof.
  unfold generated_text, first_part.
  destruct (Get response "candidates") as [candidates|] eqn:E1; [|discriminate].
  destruct (GetIndex candidates 0) as [candidate|] eqn:E2; [|discriminate].
  destruct (Get candidate "content") as [content|] eqn:E3; [|discriminate].
  destruct (Get content "parts") as [parts|] eqn:E4; [|discriminate].
  destruct (GetIndex parts 0) as [part|] eqn:E5; [|discriminate].
  intros E6.
  destruct (Get_Normal_inv _ _ _ E6) as [N6 ->].
  destruct (GetIndex_Normal_inv _ _ _ E5) as [N5 _].
  destruct (Get_Normal_inv _ _ _ E4) as [N4 _].
  destruct (Get_Normal_inv _ _ _ E3) as [N3 _].
  destruct (GetIndex_Normal_inv _ _ _ E2) as [N2 _].
  rewrite (Get_found _ _ _ E1 N2), (GetIndex_found _ _ _ E2 N3).
  rewrite (Get_found _ _ _ E3 N4), (Get_found _ _ _ E4 N5).
  exists part. split; [exact (GetIndex_found _ _ _ E5 N6)|]. split; [exact N6 | reflexivity].
Qed.

Lemma snoc_neq {A} (l : list A) (x : A) : l ++ [x] <> l.
Proof.
  intros H. apply (f_equal (@List.length A)) in H.
  rewrite List.length_app in H. simpl in H. lia.
Qed.

(** X1: when the credential is a non-empty string the client is built from
    exactly that credential, and what startup writes to the console is the
    same for every such credential: the key is not logged. *)
Theorem init_ai_configured new_GoogleGenAI (env1 env2 : list (JsString * JsString)) w
  (key1 key2 : JsString) :
  assoc (str "GEMINI_API_KEY") env1 = Some key1 -> key1 <> [] ->
  assoc (str "GEMINI_API_KEY") env2 = Some key2 -> key2 <> [] ->
  fst (init_ai new_GoogleGenAI env1 w)
  = Normal (Some (new_GoogleGenAI (JObject [(str "apiKey", JString key1)])))
  /\ console (snd (init_ai new_GoogleGenAI env1 w))
     = console (snd (init_ai new_GoogleGenAI env2 w))
  /\ upstream (snd (init_ai new_GoogleGenAI env1 w)) = upstream w.
Proof.
  intros E1 N1 E2 N2. unfold init_ai, process_env. rewrite E1, E2.
  destruct key1 as [|c1 key1]; [contradiction|].
  destruct key2 as [|c2 key2]; [contradiction|].
  repeat split.
Qed.

Lemma init_ai_configured_witness :
  fst (init_ai (fun _ => resolving JNull) [(str "GEMINI_API_KEY", str "key-one")] quiet)
  = Normal (Some (resolving JNull))
  /\ console (snd (init_ai (fun _ => resolving JNull)
                     [(str "GEMINI_API_KEY", str "key-one")] quiet))
     = console (snd (init_ai (fun _ => resolving JNull)
                       [(str "PORT", str "3000"); (str "GEMINI_API_KEY", str "another")]
                       quiet))
  /\ upstream (snd (init_ai (fun _ => resolving JNull)
                      [(str "GEMINI_API_KEY", str "key-one")] quiet))
     = upstream quiet.
Proof.
  apply (init_ai_configured (fun _ => resolving JNull)
           [(str "GEMINI_API_KEY", str "key-one")]
           [(str "PORT", str "3000"); (str "GEMINI_API_KEY", str "another")]
           quiet (str "key-one") (str "another")).
  - reflexivity.
  - discriminate.
  - reflexivity.
  - discriminate.
Defined.

(** X2: a request with a parsed body is always answered: the handler does
    not throw, it sends a JSON body, and the status is one of 200, 400, 500
    and 503. *)
Theorem generate_handler_always_answers ai req w :
  nullish (body req) = false ->
  exists res j,
    fst (generate_handler ai req new_response w) = Normal res
    /\ payload res = SentJson j
    /\ In (statusCode res) [200; 400; 500; 503]%Z.
Proof.
  intros Hb. destruct ai as [client|].
  - destruct (truthy (prompt_of req)) eqn:Hp.
    + rewrite (generate_handler_call _ _ _ _ Hp). cbv zeta.
      destruct (generateContent _ _ _) as [response|reason].
      * destruct (generated_text response) as [text|e].
        -- unfold json. cbn [fst payload statusCode new_response JSON_stringify].
           eexists. eexists. split; [reflexivity|]. split; [reflexivity|].
           simpl. auto.
        -- eexists. eexists. split; [reflexivity|]. split; [reflexivity|].
           simpl. auto.
      * eexists. eexists. split; [reflexivity|]. split; [reflexivity|].
        simpl. auto.
    + rewrite (generate_handler_invalid _ _ _ _ Hb Hp).
      eexists. eexists. split; [reflexivity|]. split; [reflexivity|]. simpl. auto.
  - rewrite generate_handler_unconfigured.
    eexists. eexists. split; [reflexivity|]. split; [reflexivity|]. simpl. auto.
Qed.

Lemma generate_handler_always_answers_witness :
  exists res j,
    fst (generate_handler (Some (rejecting JNull)) haiku new_response quiet) = Normal res
    /\ payload res = SentJson j
    /\ In (statusCode res) [200; 400; 500; 503]%Z.
Proof.
  apply (generate_handler_always_answers (Some (rejecting JNull)) haiku quiet).
  reflexivity.
Defined.

(** X3: one request makes at most one upstream call, so there is no retry,
    and writes at most one console line; the earlier calls and lines are
    kept. *)
Theorem generate_handler_single_attempt ai req res w :
  exists calls lines,
    upstream (snd (generate_handler ai req res w)) = upstream w ++ calls
    /\ console (snd (generate_handler ai req res w)) = console w ++ lines
    /\ (List.length calls <= 1)%nat
    /\ (List.length lines <= 1)%nat.
Proof.
  destruct ai as [client|].
  - destruct (nullish (body req)) eqn:Hb.
    + rewrite (generate_handler_no_body _ _ _ _ Hb).
      exists [], []. cbn [snd]. rewrite !app_nil_r. repeat split; simpl; lia.
    + destruct (truthy (prompt_of req)) eqn:Hp.
      * rewrite (generate_handler_call _ _ _ _ Hp). cbv zeta.
        destruct (generateContent _ _ _) as [response|reason].
        -- destruct (generated_text response) as [text|e].
           ++ eexists [_], []. cbn [snd console upstream]. rewrite app_nil_r.
              repeat split; simpl; lia.
           ++ eexists [_], [_]. cbn [snd console upstream].
              repeat split; simpl; lia.
        -- eexists [_], [_]. cbn [snd console upstream]. repeat split; simpl; lia.
      * rewrite (generate_handler_invalid _ _ _ _ Hb Hp).
        exists [], []. cbn [snd]. rewrite !app_nil_r. repeat split; simpl; lia.
  - rewrite generate_handler_unconfigured.
    eexists [], [_]. cbn [snd console upstream]. rewrite app_nil_r.
    repeat split; simpl; lia.
Qed.

(** X4: the handler writes to the console exactly when it answers with a
    server fault: a 200 and a 400 leave the console as it was, a 500 and a
    503 add a line. *)
Theorem generate_handler_logs_faults_only ai req w res :
  fst (generate_handler ai req new_response w) = Normal res ->
  (console (snd (generate_handler ai req new_response w)) = console w
   <-> statusCode res = 200%Z \/ statusCode res = 400%Z).
Proof.
  destruct ai as [client|].
  - destruct (nullish (body req)) eqn:Hb.
    + rewrite (generate_handler_no_body _ _ _ _ Hb). discriminate.
    + destruct (truthy (prompt_of req)) eqn:Hp.
      * rewrite (generate_handler_call _ _ _ _ Hp). cbv zeta.
        destruct (generateContent _ _ _) as [response|reason].
        -- destruct (generated_text response) as [text|e];
             cbn [fst snd console]; intros H; injection H as <-.
           ++ split; [intros _; left; reflexivity | reflexivity].
           ++ split; [intros H; destruct (snoc_neq _ _ H)
                     | intros [H|H]; simpl in H; lia].
        -- cbn [fst snd console]. intros H; injection H as <-.
           split; [intros H; destruct (snoc_neq _ _ H)
                  | intros [H|H]; simpl in H; lia].
      * rewrite (generate_handler_invalid _ _ _ _ Hb Hp).
        cbn [fst snd]. intros H; injection H as <-.
        split; [intros _; right; reflexivity | reflexivity].
  - rewrite generate_handler_unconfigured.
    cbn [fst snd console]. intros H; injection H as <-.
    split; [intros H; destruct (snoc_neq _ _ H) | intros [H|H]; simpl in H; lia].
Qed.

Lemma generate_handler_logs_faults_only_witness :
  console (snd (generate_handler (Some (resolving JNull)) (post (JObject []))
                  new_response quiet))
  = console quiet
  <-> statusCode {| statusCode := 400; headers := [];
                    payload := error_body "Prompt is required in the request body." |}
      = 200%Z
      \/ statusCode {| statusCode := 400; headers := [];
                       payload := error_body "Prompt is required in the request body." |}
         = 400%Z.
Proof.
  apply (generate_handler_logs_faults_only (Some (resolving JNull)) (post (JObject []))
           quiet).
  reflexivity.
Defined.

(** X5: the read [response.candidates[0].content.parts[0].text] completes
    exactly when the response has a first part that is not [undefined] or
    [null]; the result is then the [text] property of that part, or
    [undefined] when the part has none.  In every other case it throws. *)
Theorem generated_text_defined_iff response text :
  generated_text response = Normal text
  <-> exists part,
        first_part response = Some part
        /\ nullish part = false
        /\ text = match own_prop part (str "text") with
                  | Some y => y
                  | None => JUndefined
                  end.
Proof.
  split.
  - apply generated_text_Normal_inv.
  - intros (part & Hpart & Hobj & ->).
    rewrite (generated_text_first_part _ _ Hpart). unfold Get. rewrite Hobj. reflexivity.
Qed.

(** X6: with the client configured and a truthy prompt the answer is a 200
    or a 500, and it is a 200 exactly when the call resolves with a response
    that has a first part. *)
Theorem generate_status_200_iff ai req w :
  truthy (prompt_of req) = true ->
  exists res,
    fst (generate_handler (Some ai) req new_response w) = Normal res
    /\ (statusCode res = 200%Z \/ statusCode res = 500%Z)
    /\ (statusCode res = 200%Z
        <-> exists response part,
              generateContent (models ai) (upstream w) (expected_request (prompt_of req))
              = Fulfilled response
              /\ first_part response = Some part
              /\ nullish part = false).
Proof.
  intros Hp. rewrite (generate_handler_call _ _ _ _ Hp). cbv zeta.
  destruct (generateContent _ _ _) as [response|reason].
  - destruct (generated_text response) as [text|e] eqn:Ht.
    + eexists. split; [reflexivity|]. split; [left; reflexivity|].
      split; [intros _ | reflexivity].
      destruct (generated_text_Normal_inv _ _ Ht) as (part & Hpart & Hobj & _).
      exists response, part. repeat split; assumption.
    + eexists. split; [reflexivity|]. split; [right; reflexivity|].
      split; [intros H; simpl in H; lia|].
      intros (response' & part & Hcall & Hpart & Hobj).
      injection Hcall as <-.
      rewrite (generated_text_first_part _ _ Hpart) in Ht.
      unfold Get in Ht. rewrite Hobj in Ht. discriminate.
  - eexists. split; [reflexivity|]. split; [right; reflexivity|].
    split; [intros H; simpl in H; lia|].
    intros (response' & part & Hcall & _). discriminate.
Qed.

Lemma generate_status_200_iff_witness :
  exists res,
    fst (generate_handler (Some (resolving (JObject [(str "candidates", JArray [])])))
           haiku new_response quiet)
    = Normal res
    /\ (statusCode res = 200%Z \/ statusCode res = 500%Z)
    /\ (statusCode res = 200%Z
        <-> exists response part,
              generateContent (models (resolving (JObject [(str "candidates", JArray [])])))
                (upstream quiet) (expected_request (prompt_of haiku))
              = Fulfilled response
              /\ first_part response = Some part
              /\ nullish part = false).
Proof.
  apply (generate_status_200_iff (resolving (JObject [(str "candidates", JArray [])]))
           haiku quiet).
  reflexivity.
Defined.

(** X7: every answer other than a 200 has the body [{ error: message }]
    with a message that is not empty, and a 200 has a body without an
    [error] field. *)
Theorem generate_error_bodies ai req w res :
  fst (generate_handler ai req new_response w) = Normal res ->
  (statusCode res = 200%Z ->
   exists j, payload res = SentJson j /\ json_field j (str "error") = None)
  /\ (statusCode res <> 200%Z ->
      exists message,
        message <> []
        /\ payload res = SentJson (JsonObject [(str "error", JsonString message)])).
Proof.
  destruct ai as [client|].
  - destruct (nullish (body req)) eqn:Hb.
    + rewrite (generate_handler_no_body _ _ _ _ Hb). discriminate.
    + destruct (truthy (prompt_of req)) eqn:Hp.
      * rewrite (generate_handler_call _ _ _ _ Hp). cbv zeta.
        destruct (generateContent _ _ _) as [response|reason].
        -- destruct (generated_text response) as [text|e];
             cbn [fst]; intros H; injection H as <-.
           ++ split; [intros _ | intros H; simpl in H; lia].
              unfold json. cbn [payload JSON_stringify].
              destruct (JSON_stringify text); eexists; split; reflexivity.
           ++ split; [intros H; simpl in H; lia | intros _].
              eexists. split; [|reflexivity]. discriminate.
        -- cbn [fst]. intros H; injection H as <-.
           split; [intros H; simpl in H; lia | intros _].
           eexists. split; [|reflexivity]. discriminate.
      * rewrite (generate_handler_invalid _ _ _ _ Hb Hp).
        cbn [fst]. intros H; injection H as <-.
        split; [intros H; simpl in H; lia | intros _].
        eexists. split; [|reflexivity]. discriminate.
  - rewrite generate_handler_unconfigured.
    cbn [fst]. intros H; injection H as <-.
    split; [intros H; simpl in H; lia | intros _].
    eexists. split; [|reflexivity]. discriminate.
Qed.

Lemma generate_error_bodies_witness :
  (statusCode {| statusCode := 503; headers := [];
                 payload := error_body "AI service is unavailable. The server is missing required configuration (API Key)." |}
   = 200%Z ->
   exists j,
     payload {| statusCode := 503; headers := [];
                payload := error_body "AI service is unavailable. The server is missing required configuration (API Key)." |}
     = SentJson j
     /\ json_field j (str "error") = None)
  /\ (statusCode {| statusCode := 503; headers := [];
                    payload := error_body "AI service is unavailable. The server is missing required configuration (API Key)." |}
      <> 200%Z ->
      exists message,
        message <> []
        /\ payload {| statusCode := 503; headers := [];
                      payload := error_body "AI service is unavailable. The server is missing required configuration (API Key)." |}
           = SentJson (JsonObject [(str "error", JsonString message)])).
Proof.
  apply (generate_error_bodies None haiku quiet).
  reflexivity.
Defined.

(** X8: a failed upstream call is logged with its reason: the console gets
    the one line "Gemini API call failed:" followed by the rejection reason
    or by the error thrown while the response was read. *)
Theorem generate_failure_logged ai req w :
  truthy (prompt_of req) = true ->
  upstream_fails ai w (expected_request (prompt_of req)) ->
  exists reason,
    console (snd (generate_handler (Some ai) req new_response w))
    = console w
      ++ [{| level := console_error;
             args := [JString (str "Gemini API call failed:"); reason] |}]
    /\ match generateContent (models ai) (upstream w) (expected_request (prompt_of req)) with
       | Rejected r => reason = r
       | Fulfilled response => generated_text response = Throw reason
       end.
Proof.
  intros Hp Hfail. rewrite (generate_handler_call _ _ _ _ Hp). cbv zeta.
  unfold upstream_fails in Hfail.
  destruct (generateContent _ _ _) as [response|reason].
  - destruct Hfail as [e He]. rewrite He. exists e. split; reflexivity.
  - exists reason. split; reflexivity.
Qed.

Lemma generate_failure_logged_witness :
  exists reason,
    console (snd (generate_handler
                    (Some (rejecting (JError (str "Error") (str "fetch failed"))))
                    haiku new_response quiet))
    = console quiet
      ++ [{| level := console_error;
             args := [JString (str "Gemini API call failed:"); reason] |}]
    /\ match generateContent (models (rejecting (JError (str "Error") (str "fetch failed"))))
               (upstream quiet) (expected_request (prompt_of haiku)) with
       | Rejected r => reason = r
       | Fulfilled response => generated_text response = Throw reason
       end.
Proof.
  apply (generate_failure_logged (rejecting (JError (str "Error") (str "fetch failed")))
           haiku quiet).
  - reflexivity.
  - exact I.
Defined.

(** ** The submit listener of the page *)

Lemma JsString_eqb_eq a b : JsString_eqb a b = true -> a = b.
Proof.
  revert b. induction a as [|x a IH]; intros [|y b]; simpl; try discriminate.
  - reflexivity.
  - intros H. apply andb_prop in H. destruct H as [Hx Hab].
    apply N.eqb_eq in Hx. now rewrite Hx, (IH _ Hab).
Qed.

Lemma classList_add_In token classes : In (str token) (classList_add token classes).
Proof.
  unfold classList_add.
  destruct (existsb (JsString_eqb (str token)) classes) eqn:E.
  - apply existsb_exists in E. destruct E as (c & Hin & Heq).
    now rewrite (JsString_eqb_eq _ _ Heq).
  - apply in_or_app. right. left. reflexivity.
Qed.

Lemma classList_add_keeps token classes c :
  In c classes -> In c (classList_add token classes).
Proof.
  unfold classList_add. destruct (existsb _ classes); [trivial|].
  intros H. apply in_or_app. now left.
Qed.

Lemma submit_listener_run Number_toString fetch d :
  submit_listener Number_toString fetch d
  = try_catch_finally (submit_try Number_toString fetch (prompt_input_value d))
      (submit_catch Number_toString) submit_finally (prepared d).
Proof. reflexivity. Qed.

(** The [finally] block does not throw and touches the loading indicator and
    the button only. *)
Lemma submit_finally_run d :
  submit_finally d
  = (Normal tt,
     {| prompt_input_value := prompt_input_value d;
        output_textContent := output_textContent d;
        output_classList := output_classList d;
        loading_classList := classList_add "hidden" (loading_classList d);
        submit_button_disabled := false;
        defaultPrevented := defaultPrevented d;
        browser_console := browser_console d;
        fetched := fetched d |}).
Proof. reflexivity. Qed.

(** The [catch] block on an [Error] object. *)
Lemma submit_catch_Error Number_toString name message d :
  submit_catch Number_toString (JError name message) d
  = (Normal tt,
     {| prompt_input_value := prompt_input_value d;
        output_textContent := error_text message;
        output_classList :=
          classList_add "italic" (classList_add "text-red-600" (output_classList d));
        loading_classList := loading_classList d;
        submit_button_disabled := submit_button_disabled d;
        defaultPrevented := defaultPrevented d;
        browser_console :=
          browser_console d
          ++ [{| level := console_error;
                 args := [JString (str "API Error:"); JError name message] |}];
        fetched := fetched d |}).
Proof. reflexivity. Qed.

(** The [catch] block keeps the calls, the event and the controls. *)
Lemma submit_catch_frame Number_toString e d :
  fetched (snd (submit_catch Number_toString e d)) = fetched d
  /\ defaultPrevented (snd (submit_catch Number_toString e d)) = defaultPrevented d
  /\ browser_console (snd (submit_catch Number_toString e d))
     = browser_console d
       ++ [{| level := console_error; args := [JString (str "API Error:"); e] |}].
Proof.
  unfold submit_catch, and_then, completing, browser_console_error, update.
  destruct (Get e "message") as [message|]; [|repeat split].
  destruct (ToString Number_toString message); repeat split.
Qed.

(** The [try] block makes the one call, whatever happens next, and leaves
    the console alone. *)
Lemma submit_try_frame Number_toString fetch prompt d :
  fetched (snd (submit_try Number_toString fetch prompt d))
  = fetched d ++ [submit_call prompt]
  /\ defaultPrevented (snd (submit_try Number_toString fetch prompt d))
     = defaultPrevented d
  /\ browser_console (snd (submit_try Number_toString fetch prompt d))
     = browser_console d.
Proof.
  unfold submit_try, and_then, await_fetch, await_json, completing, throw, done.
  cbn [JSON_stringify]. fold (submit_call prompt).
  destruct (fetch (fetched d) (submit_call prompt)) as [reason|response];
    [repeat split|].
  destruct (response_ok response); cbn [negb].
  - destruct (response_json response) as [data|reason]; [|repeat split].
    destruct (Get data "text") as [text|]; [|repeat split].
    destruct (DOMString_or_null Number_toString text); repeat split.
  - destruct (response_json response) as [errorData|reason]; [|repeat split].
    destruct (Get errorData "error") as [error|]; [|repeat split].
    destruct (ToString Number_toString _); repeat split.
Qed.

(** What a run of the listener leaves, from what its [try] block did. *)
Lemma submit_listener_completed Number_toString fetch d d1 :
  submit_try Number_toString fetch (prompt_input_value d) (prepared d) = (Normal tt, d1) ->
  submit_listener Number_toString fetch d = (Normal tt, snd (submit_finally d1)).
Proof.
  intros H. rewrite submit_listener_run. unfold try_catch_finally. rewrite H.
  reflexivity.
Qed.

Lemma submit_listener_caught Number_toString fetch d name message d1 :
  submit_try Number_toString fetch (prompt_input_value d) (prepared d)
  = (Throw (JError name message), d1) ->
  submit_listener Number_toString fetch d
  = (Normal tt,
     snd (submit_finally (snd (submit_catch Number_toString (JError name message) d1)))).
Proof.
  intros H. rewrite submit_listener_run. unfold try_catch_finally. rewrite H.
  rewrite submit_catch_Error. reflexivity.
Qed.

(** X9: however a run of the submit listener goes (the call fails, the
    answer is an error, the body is not JSON, even when the [catch] block
    throws), it ends with the loading indicator hidden and the button
    enabled. *)
Theorem submit_restores_controls Number_toString fetch d :
  In (str "hidden") (loading_classList (snd (submit_listener Number_toString fetch d)))
  /\ submit_button_disabled (snd (submit_listener Number_toString fetch d)) = false.
Proof.
  rewrite submit_listener_run. unfold try_catch_finally.
  destruct (submit_try _ _ _ _) as [[[]|e] d1].
  - rewrite submit_finally_run. cbn [snd loading_classList submit_button_disabled].
    split; [apply classList_add_In | reflexivity].
  - destruct (submit_catch _ e d1) as [completion d2].
    rewrite submit_finally_run. cbn [snd loading_classList submit_button_disabled].
    split; [apply classList_add_In | reflexivity].
Qed.

(** X10: every run of the listener cancels the submission of the form and
    makes exactly one call: a POST to /api/generate with the JSON content
    type and the body [{ prompt: value }], where [value] is the text of the
    input, unchecked. *)
Theorem submit_posts_prompt Number_toString fetch d :
  fetched (snd (submit_listener Number_toString fetch d))
  = fetched d
    ++ [{| fetch_url := str "/api/generate";
           fetch_method := str "POST";
           fetch_headers := [(str "Content-Type", str "application/json")];
           fetch_body :=
             Some (JsonObject [(str "prompt", JsonString (prompt_input_value d))]) |}]
  /\ defaultPrevented (snd (submit_listener Number_toString fetch d)) = true.
Proof.
  rewrite submit_listener_run. unfold try_catch_finally.
  pose proof (submit_try_frame Number_toString fetch (prompt_input_value d) (prepared d))
    as (Hcalls & Hevent & _).
  destruct (submit_try _ _ _ _) as [[[]|e] d1]; cbn [snd] in Hcalls, Hevent.
  - rewrite submit_finally_run. cbn [snd fetched defaultPrevented].
    rewrite Hcalls, Hevent. split; reflexivity.
  - pose proof (submit_catch_frame Number_toString e d1) as (Hcalls' & Hevent' & _).
    destruct (submit_catch _ e d1) as [completion d2]; cbn [snd] in Hcalls', Hevent'.
    rewrite submit_finally_run. cbn [snd fetched defaultPrevented].
    rewrite Hcalls', Hevent', Hcalls, Hevent. split; reflexivity.
Qed.

(** X11: when the answer is ok and its JSON body has the string [text], the
    page shows that text, without the error styling (the classes
    text-red-600 and italic are gone), and nothing is logged. *)
Theorem submit_shows_text Number_toString fetch d response data text :
  fetch (fetched d) (submit_call (prompt_input_value d)) = fetch_fulfilled response ->
  response_ok response = true ->
  response_json response = Fulfilled data ->
  own_prop data (str "text") = Some (JString text) ->
  fst (submit_listener Number_toString fetch d) = Normal tt
  /\ output_textContent (snd (submit_listener Number_toString fetch d)) = text
  /\ output_classList (snd (submit_listener Number_toString fetch d))
     = classList_remove "italic" (classList_remove "text-red-600" (output_classList d))
  /\ browser_console (snd (submit_listener Number_toString fetch d)) = browser_console d.
Proof.
  intros Hfetch Hok Hjson Htext.
  rewrite (submit_listener_completed Number_toString fetch d
             {| prompt_input_value := prompt_input_value d;
                output_textContent := text;
                output_classList := output_classList (prepared d);
                loading_classList := loading_classList (prepared d);
                submit_button_disabled := true;
                defaultPrevented := true;
                browser_console := browser_console d;
                fetched := fetched d ++ [submit_call (prompt_input_value d)] |}).
  - repeat split.
  - unfold submit_try, and_then, await_fetch, await_json, completing, done.
    cbn [JSON_stringify]. fold (submit_call (prompt_input_value d)).
    cbn [fetched prepared]. rewrite Hfetch, Hok. cbn [negb]. rewrite Hjson.
    rewrite (Get_own _ "text" _ Htext). reflexivity.
Qed.

Lemma submit_shows_text_witness :
  fst (submit_listener (fun _ => [])
         (answering 200 (JObject [(str "text", JString (str "Cold start, then warm glow..."))]))
         (loaded_page (str "Write a haiku")))
  = Normal tt
  /\ output_textContent
       (snd (submit_listener (fun _ => [])
               (answering 200
                  (JObject [(str "text", JString (str "Cold start, then warm glow..."))]))
               (loaded_page (str "Write a haiku"))))
     = str "Cold start, then warm glow..."
  /\ output_classList
       (snd (submit_listener (fun _ => [])
               (answering 200
                  (JObject [(str "text", JString (str "Cold start, then warm glow..."))]))
               (loaded_page (str "Write a haiku"))))
     = classList_remove "italic"
         (classList_remove "text-red-600"
            (output_classList (loaded_page (str "Write a haiku"))))
  /\ browser_console
       (snd (submit_listener (fun _ => [])
               (answering 200
                  (JObject [(str "text", JString (str "Cold start, then warm glow..."))]))
               (loaded_page (str "Write a haiku"))))
     = browser_console (loaded_page (str "Write a haiku")).
Proof.
  apply (submit_shows_text (fun _ => [])
           (answering 200 (JObject [(str "text", JString (str "Cold start, then warm glow..."))]))
           (loaded_page (str "Write a haiku"))
           {| response_status := 200;
              response_json :=
                Fulfilled (JObject [(str "text",
                                     JString (str "Cold start, then warm glow..."))]) |}
           (JObject [(str "text", JString (str "Cold start, then warm glow..."))])
           (str "Cold start, then warm glow...")).
  - reflexivity.
  - reflexivity.
  - reflexivity.
  - reflexivity.
Defined.

(** X12: when the answer is ok and its JSON body is a value without a
    [text] property, as the body of the 200 the server sends for a part
    without text, the page shows the empty text and no error. *)
Theorem submit_shows_nothing Number_toString fetch d response data :
  fetch (fetched d) (submit_call (prompt_input_value d)) = fetch_fulfilled response ->
  response_ok response = true ->
  response_json response = Fulfilled data ->
  nullish data = false ->
  own_prop data (str "text") = None ->
  fst (submit_listener Number_toString fetch d) = Normal tt
  /\ output_textContent (snd (submit_listener Number_toString fetch d)) = []
  /\ output_classList (snd (submit_listener Number_toString fetch d))
     = classList_remove "italic" (classList_remove "text-red-600" (output_classList d))
  /\ browser_console (snd (submit_listener Number_toString fetch d)) = browser_console d.
Proof.
  intros Hfetch Hok Hjson Hdata Htext.
  rewrite (submit_listener_completed Number_toString fetch d
             {| prompt_input_value := prompt_input_value d;
                output_textContent := [];
                output_classList := output_classList (prepared d);
                loading_classList := loading_classList (prepared d);
                submit_button_disabled := true;
                defaultPrevented := true;
                browser_console := browser_console d;
                fetched := fetched d ++ [submit_call (prompt_input_value d)] |}).
  - repeat split.
  - unfold submit_try, and_then, await_fetch, await_json, completing, done.
    cbn [JSON_stringify]. fold (submit_call (prompt_input_value d)).
    cbn [fetched prepared]. rewrite Hfetch, Hok. cbn [negb]. rewrite Hjson.
    rewrite (Get_missing _ "text" Hdata Htext). reflexivity.
Qed.

Lemma submit_shows_nothing_witness :
  fst (submit_listener (fun _ => []) (answering 200 (JObject [])) (loaded_page (str "hi")))
  = Normal tt
  /\ output_textContent
       (snd (submit_listener (fun _ => []) (answering 200 (JObject []))
               (loaded_page (str "hi"))))
     = []
  /\ output_classList
       (snd (submit_listener (fun _ => []) (answering 200 (JObject []))
               (loaded_page (str "hi"))))
     = classList_remove "italic"
         (classList_remove "text-red-600" (output_classList (loaded_page (str "hi"))))
  /\ browser_console
       (snd (submit_listener (fun _ => []) (answering 200 (JObject []))
               (loaded_page (str "hi"))))
     = browser_console (loaded_page (str "hi")).
Proof.
  apply (submit_shows_nothing (fun _ => []) (answering 200 (JObject []))
           (loaded_page (str "hi"))
           {| response_status := 200; response_json := Fulfilled (JObject []) |}
           (JObject [])).
  - reflexivity.
  - reflexivity.
  - reflexivity.
  - reflexivity.
  - reflexivity.
Defined.

(** What the page shows when the [try] block throws an [Error] after the
    call. *)
Lemma submit_listener_error Number_toString fetch d name message :
  submit_try Number_toString fetch (prompt_input_value d) (prepared d)
  = (Throw (JError name message), sent d) ->
  fst (submit_listener Number_toString fetch d) = Normal tt
  /\ output_textContent (snd (submit_listener Number_toString fetch d))
     = error_text message
  /\ In (str "text-red-600")
       (output_classList (snd (submit_listener Number_toString fetch d)))
  /\ In (str "italic") (output_classList (snd (submit_listener Number_toString fetch d)))
  /\ browser_console (snd (submit_listener Number_toString fetch d))
     = browser_console d
       ++ [{| level := console_error;
              args := [JString (str "API Error:"); JError name message] |}].
Proof.
  intros H. rewrite (submit_listener_caught _ _ _ _ _ _ H).
  rewrite submit_catch_Error, submit_finally_run.
  cbn [fst snd output_textContent output_classList browser_console sent].
  repeat split.
  - apply classList_add_keeps, classList_add_In.
  - apply classList_add_In.
Qed.

(** X13: when the answer is not ok and its JSON body has a non-empty string
    [error], as every error body of the server has, the page shows
    "Error: ", that message and the fixed advice, with the error styling,
    and logs the error. *)
Theorem submit_shows_server_error Number_toString fetch d response errorData message :
  fetch (fetched d) (submit_call (prompt_input_value d)) = fetch_fulfilled response ->
  response_ok response = false ->
  response_json response = Fulfilled errorData ->
  own_prop errorData (str "error") = Some (JString message) ->
  message <> [] ->
  fst (submit_listener Number_toString fetch d) = Normal tt
  /\ output_textContent (snd (submit_listener Number_toString fetch d))
     = str "Error: " ++ message
       ++ str ". Please ensure the GEMINI_API_KEY is correctly configured on the Cloud Run service."
  /\ In (str "text-red-600")
       (output_classList (snd (submit_listener Number_toString fetch d)))
  /\ In (str "italic") (output_classList (snd (submit_listener Number_toString fetch d)))
  /\ browser_console (snd (submit_listener Number_toString fetch d))
     = browser_console d
       ++ [{| level := console_error;
              args := [JString (str "API Error:"); JError (str "Error") message] |}].
Proof.
  intros Hfetch Hok Hjson Herror Hne.
  apply submit_listener_error.
  unfold submit_try, and_then, await_fetch, await_json, completing, throw.
  cbn [JSON_stringify]. fold (submit_call (prompt_input_value d)).
  cbn [fetched prepared]. rewrite Hfetch, Hok. cbn [negb]. rewrite Hjson.
  rewrite (Get_own _ "error" _ Herror).
  destruct message as [|c message]; [contradiction|]. reflexivity.
Qed.

Lemma submit_shows_server_error_witness :
  fst (submit_listener (fun _ => [])
         (answering 400 (JObject [(str "error", JString (str "Prompt is required in the request body."))]))
         (loaded_page (str EmptyString)))
  = Normal tt
  /\ output_textContent
       (snd (submit_listener (fun _ => [])
               (answering 400 (JObject [(str "error", JString (str "Prompt is required in the request body."))]))
               (loaded_page (str EmptyString))))
     = str "Error: " ++ str "Prompt is required in the request body."
       ++ str ". Please ensure the GEMINI_API_KEY is correctly configured on the Cloud Run service."
  /\ In (str "text-red-600")
       (output_classList
          (snd (submit_listener (fun _ => [])
                  (answering 400 (JObject [(str "error", JString (str "Prompt is required in the request body."))]))
                  (loaded_page (str EmptyString)))))
  /\ In (str "italic")
       (output_classList
          (snd (submit_listener (fun _ => [])
                  (answering 400 (JObject [(str "error", JString (str "Prompt is required in the request body."))]))
                  (loaded_page (str EmptyString)))))
  /\ browser_console
       (snd (submit_listener (fun _ => [])
               (answering 400 (JObject [(str "error", JString (str "Prompt is required in the request body."))]))
               (loaded_page (str EmptyString))))
     = browser_console (loaded_page (str EmptyString))
       ++ [{| level := console_error;
              args := [JString (str "API Error:");
                       JError (str "Error") (str "Prompt is required in the request body.")] |}].
Proof.
  apply (submit_shows_server_error (fun _ => [])
           (answering 400 (JObject [(str "error", JString (str "Prompt is required in the request body."))]))
           (loaded_page (str EmptyString))
           {| response_status := 400;
              response_json :=
                Fulfilled (JObject [(str "error",
                                     JString (str "Prompt is required in the request body."))]) |}
           (JObject [(str "error", JString (str "Prompt is required in the request body."))])
           (str "Prompt is required in the request body.")).
  - reflexivity.
  - reflexivity.
  - reflexivity.
  - reflexivity.
  - discriminate.
Defined.

(** X14: when the answer is not ok and its JSON body is a value whose
    [error] is missing or falsy, the message shown is the fallback
    "HTTP error! Status: " followed by the status in decimal. *)
Theorem submit_shows_status Number_toString fetch d response errorData :
  fetch (fetched d) (submit_call (prompt_input_value d)) = fetch_fulfilled response ->
  response_ok response = false ->
  response_json response = Fulfilled errorData ->
  nullish errorData = false ->
  truthy (match own_prop errorData (str "error") with
          | Some e => e
          | None => JUndefined
          end) = false ->
  fst (submit_listener Number_toString fetch d) = Normal tt
  /\ output_textContent (snd (submit_listener Number_toString fetch d))
     = str "Error: "
       ++ (str "HTTP error! Status: " ++ decimal (response_status response))
       ++ str ". Please ensure the GEMINI_API_KEY is correctly configured on the Cloud Run service."
  /\ In (str "text-red-600")
       (output_classList (snd (submit_listener Number_toString fetch d)))
  /\ In (str "italic") (output_classList (snd (submit_listener Number_toString fetch d))).
Proof.
  intros Hfetch Hok Hjson Hdata Hfalsy.
  destruct (submit_listener_error Number_toString fetch d (str "Error")
              (str "HTTP error! Status: " ++ decimal (response_status response)))
    as (H1 & H2 & H3 & H4 & _).
  - unfold submit_try, and_then, await_fetch, await_json, completing, throw.
    cbn [JSON_stringify]. fold (submit_call (prompt_input_value d)).
    cbn [fetched prepared]. rewrite Hfetch, Hok. cbn [negb]. rewrite Hjson.
    unfold Get. rewrite Hdata. unfold or_else. rewrite Hfalsy. reflexivity.
  - repeat split; assumption.
Qed.

Lemma submit_shows_status_witness :
  fst (submit_listener (fun _ => []) (answering 500 (JObject [])) (loaded_page (str "hi")))
  = Normal tt
  /\ output_textContent
       (snd (submit_listener (fun _ => []) (answering 500 (JObject []))
               (loaded_page (str "hi"))))
     = str "Error: "
       ++ (str "HTTP error! Status: " ++ decimal 500)
       ++ str ". Please ensure the GEMINI_API_KEY is correctly configured on the Cloud Run service."
  /\ In (str "text-red-600")
       (output_classList
          (snd (submit_listener (fun _ => []) (answering 500 (JObject []))
                  (loaded_page (str "hi")))))
  /\ In (str "italic")
       (output_classList
          (snd (submit_listener (fun _ => []) (answering 500 (JObject []))
                  (loaded_page (str "hi"))))).
Proof.
  apply (submit_shows_status (fun _ => []) (answering 500 (JObject []))
           (loaded_page (str "hi"))
           {| response_status := 500; response_json := Fulfilled (JObject []) |}
           (JObject [])).
  - reflexivity.
  - reflexivity.
  - reflexivity.
  - reflexivity.
  - reflexivity.
Defined.

(** X15: when [fetch] is rejected with an [Error], or the body of the answer
    is not JSON and [json()] is rejected with an [Error], whatever the
    status, the page shows "Error: ", the message of that error and the
    fixed advice, with the error styling. *)
Theorem submit_shows_failure Number_toString fetch d name message :
  (fetch (fetched d) (submit_call (prompt_input_value d))
   = fetch_rejected (JError name message)
   \/ exists response,
        fetch (fetched d) (submit_call (prompt_input_value d)) = fetch_fulfilled response
        /\ response_json response = Rejected (JError name message)) ->
  fst (submit_listener Number_toString fetch d) = Normal tt
  /\ output_textContent (snd (submit_listener Number_toString fetch d))
     = str "Error: " ++ message
       ++ str ". Please ensure the GEMINI_API_KEY is correctly configured on the Cloud Run service."
  /\ In (str "text-red-600")
       (output_classList (snd (submit_listener Number_toString fetch d)))
  /\ In (str "italic") (output_classList (snd (submit_listener Number_toString fetch d)))
  /\ browser_console (snd (submit_listener Number_toString fetch d))
     = browser_console d
       ++ [{| level := console_error;
              args := [JString (str "API Error:"); JError name message] |}].
Proof.
  intros H. apply submit_listener_error.
  unfold submit_try, and_then, await_fetch, await_json, completing, throw.
  cbn [JSON_stringify]. fold (submit_call (prompt_input_value d)).
  cbn [fetched prepared].
  destruct H as [Hfetch | (response & Hfetch & Hjson)]; rewrite Hfetch.
  - reflexivity.
  - destruct (response_ok response); cbn [negb]; rewrite Hjson; reflexivity.
Qed.

Lemma submit_shows_failure_witness :
  fst (submit_listener (fun _ => [])
         (fun _ _ => fetch_rejected (JError (str "TypeError") (str "Failed to fetch")))
         (loaded_page (str "hi")))
  = Normal tt
  /\ output_textContent
       (snd (submit_listener (fun _ => [])
               (fun _ _ => fetch_rejected (JError (str "TypeError") (str "Failed to fetch")))
               (loaded_page (str "hi"))))
     = str "Error: " ++ str "Failed to fetch"
       ++ str ". Please ensure the GEMINI_API_KEY is correctly configured on the Cloud Run service."
  /\ In (str "text-red-600")
       (output_classList
          (snd (submit_listener (fun _ => [])
                  (fun _ _ => fetch_rejected (JError (str "TypeError") (str "Failed to fetch")))
                  (loaded_page (str "hi")))))
  /\ In (str "italic")
       (output_classList
          (snd (submit_listener (fun _ => [])
                  (fun _ _ => fetch_rejected (JError (str "TypeError") (str "Failed to fetch")))
                  (loaded_page (str "hi")))))
  /\ browser_console
       (snd (submit_listener (fun _ => [])
               (fun _ _ => fetch_rejected (JError (str "TypeError") (str "Failed to fetch")))
               (loaded_page (str "hi"))))
     = browser_console (loaded_page (str "hi"))
       ++ [{| level := console_error;
              args := [JString (str "API Error:");
                       JError (str "TypeError") (str "Failed to fetch")] |}].
Proof.
  apply (submit_shows_failure (fun _ => [])
           (fun _ _ => fetch_rejected (JError (str "TypeError") (str "Failed to fetch")))
           (loaded_page (str "hi")) (str "TypeError") (str "Failed to fetch")).
  left. reflexivity.
Defined.

(** The [try] block leaves the classes of the output as they are. *)
Lemma submit_try_classes Number_toString fetch prompt d :
  output_classList (snd (submit_try Number_toString fetch prompt d)) = output_classList d.
Proof.
  unfold submit_try, and_then, await_fetch, await_json, completing, throw, done.
  destruct (fetch (fetched d) _) as [reason|response]; [reflexivity|].
  destruct (response_ok response); cbn [negb].
  - destruct (response_json response) as [data|reason]; [|reflexivity].
    destruct (Get data "text") as [text|]; [|reflexivity].
    destruct (DOMString_or_null Number_toString text); reflexivity.
  - destruct (response_json response) as [errorData|reason]; [|reflexivity].
    destruct (Get errorData "error") as [error|]; [|reflexivity].
    destruct (ToString Number_toString _); reflexivity.
Qed.

(** A [catch] block that completes has shown an error text in the error
    styling. *)
Lemma submit_catch_completes Number_toString e d :
  fst (submit_catch Number_toString e d) = Normal tt ->
  (exists message,
      output_textContent (snd (submit_catch Number_toString e d)) = error_text message)
  /\ output_classList (snd (submit_catch Number_toString e d))
     = classList_add "italic" (classList_add "text-red-600" (output_classList d)).
Proof.
  unfold submit_catch, and_then, completing, browser_console_error, update.
  destruct (Get e "message") as [message|]; [|discriminate].
  destruct (ToString Number_toString message) as [shown|]; [|discriminate].
  intros _. split; [exists shown|]; reflexivity.
Qed.

(** X16: a run of the listener goes one of two ways.  Either it completes
    with nothing logged and the error styling removed, or it logs one
    "API Error:" line with the error caught, and then, when it completes, the
    output shows an error text in the error styling.  No failure goes
    unlogged and no success is styled as an error. *)
Theorem submit_logs_every_failure Number_toString fetch d :
  (fst (submit_listener Number_toString fetch d) = Normal tt
   /\ browser_console (snd (submit_listener Number_toString fetch d)) = browser_console d
   /\ output_classList (snd (submit_listener Number_toString fetch d))
      = classList_remove "italic" (classList_remove "text-red-600" (output_classList d)))
  \/ (exists error,
         browser_console (snd (submit_listener Number_toString fetch d))
         = browser_console d
           ++ [{| level := console_error; args := [JString (str "API Error:"); error] |}]
         /\ (fst (submit_listener Number_toString fetch d) = Normal tt ->
             In (str "text-red-600")
               (output_classList (snd (submit_listener Number_toString fetch d)))
             /\ In (str "italic")
                  (output_classList (snd (submit_listener Number_toString fetch d)))
             /\ exists message,
                  output_textContent (snd (submit_listener Number_toString fetch d))
                  = str "Error: " ++ message
                    ++ str ". Please ensure the GEMINI_API_KEY is correctly configured on the Cloud Run service.")).
Proof.
  rewrite submit_listener_run. unfold try_catch_finally.
  pose proof (submit_try_frame Number_toString fetch (prompt_input_value d) (prepared d))
    as (_ & _ & Hconsole).
  pose proof (submit_try_classes Number_toString fetch (prompt_input_value d) (prepared d))
    as Hclasses.
  destruct (submit_try _ _ _ _) as [[[]|e] d1]; cbn [snd] in Hconsole, Hclasses.
  - left. rewrite submit_finally_run.
    cbn [fst snd browser_console output_classList].
    rewrite Hconsole, Hclasses. repeat split.
  - right. exists e.
    pose proof (submit_catch_frame Number_toString e d1) as (_ & _ & Hlogged).
    pose proof (submit_catch_completes Number_toString e d1) as Hshown.
    destruct (submit_catch _ e d1) as [completion d2]; cbn [fst snd] in Hlogged, Hshown.
    rewrite submit_finally_run.
    cbn [fst snd browser_console output_classList output_textContent].
    split; [rewrite Hlogged, Hconsole; reflexivity|].
    intros Hdone. destruct (Hshown Hdone) as ((message & Htext) & Hstyle).
    rewrite Hstyle. split; [|split].
    + apply classList_add_keeps, classList_add_In.
    + apply classList_add_In.
    + exists message. exact Htext.
Qed.
